(** * dudu-proxy: the admission control plane and the two proxy frontends

    A shallow embedding of the Go sources under [internal/manager],
    [internal/middleware] and [internal/proxy].  Time is explicit: every
    operation that calls [time.Now()] takes the current instant [now]
    (nanoseconds, as [time.Duration] counts them) as an argument.  Go maps
    are stdpp [gmap]s; byte slices are [list byte]. *)

From Stdlib Require Import ZArith List String Ascii Bool Lia.
From Stdlib Require Import Init.Byte.
From stdpp Require Import base gmap strings list.

Import ListNotations.
Open Scope Z_scope.

(* ------------------------------------------------------------------ *)
(** ** Formatting helpers ([fmt] and [strconv]) *)

Module Fmt.

(** One decimal digit. *)
Definition digit (d : Z) : ascii := ascii_of_nat (48 + Z.to_nat d).

Fixpoint utoa_go (fuel : nat) (n : Z) (acc : string) : string :=
  match fuel with
  | O => acc
  | S f =>
      let acc' := String (digit (n mod 10)) acc in
      if n <? 10 then acc' else utoa_go f (n / 10) acc'
  end.

(** [fmt.Sprintf("%d", n)] for a non-negative [n]. *)
Definition utoa (n : Z) : string := utoa_go 64 n EmptyString.

(** One lowercase hexadecimal digit. *)
Definition hexdigit (d : Z) : ascii :=
  if d <? 10 then ascii_of_nat (48 + Z.to_nat d)
  else ascii_of_nat (87 + Z.to_nat d).

Fixpoint hex_go (fuel : nat) (n : Z) (acc : string) : string :=
  match fuel with
  | O => acc
  | S f =>
      let acc' := String (hexdigit (n mod 16)) acc in
      if n <? 16 then acc' else hex_go f (n / 16) acc'
  end.

(** [appendHex]: hexadecimal without leading zeros. *)
Definition appendHex (n : Z) : string := hex_go 8 n EmptyString.

(** [strings.Contains(s, string(c))] for a one-character substring. *)
Fixpoint contains_char (c : ascii) (s : string) : bool :=
  match s with
  | EmptyString => false
  | String c' s' => if Ascii.eqb c c' then true else contains_char c s'
  end.

End Fmt.

(* ------------------------------------------------------------------ *)
(** ** Go's [int] and [time.Duration]: 64-bit two's complement *)

(** An integer reduced to the [int64] range, as Go's wrapping [int] and
    [time.Duration] arithmetic leaves it. *)
Definition wrap64 (z : Z) : Z := (z + 2 ^ 63) mod 2 ^ 64 - 2 ^ 63.

(** Unary minus on an [int64] value [d]: [-d], except that the minimum
    [-2^63] is its own negation. *)
Definition neg64 (d : Z) : Z := if d =? - 2 ^ 63 then d else - d.

(* ------------------------------------------------------------------ *)
(** ** [internal/manager/breaker.go] *)

Module Breaker.

Inductive CircuitBreakerState := StateClosed | StateOpen | StateHalfOpen.

#[global] Instance CircuitBreakerState_eq_dec : EqDecision CircuitBreakerState.
Proof. solve_decision. Defined.

Record requestRecord := mkRecord { timestamp : Z; success : bool }.

(** The mutex of the Go struct is not modelled: every operation is atomic. *)
Record CircuitBreaker := mkCB {
  state : CircuitBreakerState;
  failureThreshold : Z;  (** percent, [float64(failureThresholdPercent)] *)
  windowSize : Z;
  minRequests : Z;
  breakDuration : Z;
  requests : list requestRecord;
  lastStateChange : Z;
  consecutiveSuccesses : Z;
  halfOpenMaxRequests : Z
}.

Definition set_requests (rs : list requestRecord) (cb : CircuitBreaker) :=
  mkCB (state cb) (failureThreshold cb) (windowSize cb) (minRequests cb)
    (breakDuration cb) rs (lastStateChange cb) (consecutiveSuccesses cb)
    (halfOpenMaxRequests cb).

Definition set_state (st : CircuitBreakerState) (stamp cs : Z) (cb : CircuitBreaker) :=
  mkCB st (failureThreshold cb) (windowSize cb) (minRequests cb)
    (breakDuration cb) (requests cb) stamp cs (halfOpenMaxRequests cb).

Definition NewCircuitBreaker (now failureThresholdPercent windowSize minRequests
    breakDuration : Z) : CircuitBreaker :=
  mkCB StateClosed failureThresholdPercent windowSize minRequests breakDuration
    [] now 0 3.

Definition IsOpen (now : Z) (cb : CircuitBreaker) : bool :=
  match state cb with
  | StateOpen => if now - lastStateChange cb >=? breakDuration cb then false else true
  | _ => false
  end.

Definition GetState (now : Z) (cb : CircuitBreaker) : CircuitBreakerState :=
  if bool_decide (state cb = StateOpen) && (now - lastStateChange cb >=? breakDuration cb)
  then StateHalfOpen
  else state cb.

(** [cleanup]: keep the records with
    [timestamp.After(now.Add(-windowSize))].  Instants are monotonic
    clock readings in nanoseconds and [-windowSize] is the [int64]
    negation: a window of [-2^63] puts the cutoff [2^63] nanoseconds
    before [now]. *)
Definition cleanup (now : Z) (cb : CircuitBreaker) : CircuitBreaker :=
  set_requests (List.filter (fun r => now + neg64 (windowSize cb) <? timestamp r) (requests cb)) cb.

Definition failures (rs : list requestRecord) : Z :=
  Z.of_nat (length (List.filter (fun r => negb (success r)) rs)).

(** [shouldOpen].  The Go code compares
    [float64(failures) * 100.0 / float64(len)] with the threshold; for
    counts below 2^53 this is the exact rational comparison written here
    by cross-multiplication.  With no records the Go quotient is NaN and
    the comparison is false, hence the [0 < len] guard. *)
Definition shouldOpen (cb : CircuitBreaker) : bool :=
  let n := Z.of_nat (length (requests cb)) in
  bool_decide (state cb = StateClosed)
  && (minRequests cb <=? n)
  && (0 <? n)
  && (failureThreshold cb * n <=? failures (requests cb) * 100).

Definition RecordSuccess (now : Z) (cb : CircuitBreaker) : CircuitBreaker :=
  let cb1 := set_requests (requests cb ++ [mkRecord now true]) cb in
  let cb2 :=
    match state cb1 with
    | StateHalfOpen =>
        let cs := consecutiveSuccesses cb1 + 1 in
        if cs >=? halfOpenMaxRequests cb1
        then set_state StateClosed now 0 cb1
        else set_state StateHalfOpen (lastStateChange cb1) cs cb1
    | _ => cb1
    end in
  cleanup now cb2.

Definition RecordFailure (now : Z) (cb : CircuitBreaker) : CircuitBreaker :=
  let cb1 := set_requests (requests cb ++ [mkRecord now false]) cb in
  match state cb1 with
  | StateHalfOpen => cleanup now (set_state StateOpen now 0 cb1)
  | _ =>
      let cb2 := cleanup now cb1 in
      if shouldOpen cb2
      then set_state StateOpen now (consecutiveSuccesses cb2) cb2
      else cb2
  end.

Inductive CallResult := CallOk | CallFnError | ErrCircuitBreakerOpen.

(** [Call]: the protected function's outcome is the argument [fn_ok].
    This is the only path that commits the Open -> HalfOpen transition. *)
Definition Call (now : Z) (fn_ok : bool) (cb : CircuitBreaker) : CallResult * CircuitBreaker :=
  match GetState now cb with
  | StateOpen => (ErrCircuitBreakerOpen, cb)
  | currentState =>
      let cb1 :=
        if bool_decide (currentState = StateHalfOpen)
           && bool_decide (state cb = StateOpen)
           && (now - lastStateChange cb >=? breakDuration cb)
        then set_state StateHalfOpen now (consecutiveSuccesses cb) cb
        else cb in
      if fn_ok then (CallOk, RecordSuccess now cb1)
      else (CallFnError, RecordFailure now cb1)
  end.

End Breaker.

(* ------------------------------------------------------------------ *)
(** ** [internal/manager/ipban.go] *)

Module IPBan.

(** A persisted [BanRecord].  A zero [time.Time] is [None]; the JSON
    encoding round-trips every field, so the file is the record list. *)
Record BanRecord := mkBanRecord {
  IP : string;
  BannedAt : option Z;
  ExpiresAt : option Z;
  FailCount : Z
}.

(** [whitelist] is a Go [map[string]bool] whose values are all [true]:
    a set of IPs.  The sweeper goroutine and the persistence path are
    separate operations ([sweep], [saveToFile], [loadFromFile]). *)
Record IPBanManager := mkIPBan {
  bannedIPs : gmap string Z;
  bannedFailCount : gmap string Z;
  failureCounts : gmap string Z;
  maxFailures : Z;
  banDuration : Z;
  whitelist : gset string
}.

Definition set_maps (b bf fc : gmap string Z) (m : IPBanManager) : IPBanManager :=
  mkIPBan b bf fc (maxFailures m) (banDuration m) (whitelist m).

(** The manager right after its maps are made, before [loadFromFile]. *)
Definition emptyManager (maxFailures banDuration : Z) (wl : list string) : IPBanManager :=
  mkIPBan ∅ ∅ ∅ maxFailures banDuration (list_to_set wl).

Definition is_whitelisted (ip : string) (m : IPBanManager) : bool :=
  bool_decide (ip ∈ whitelist m).

(** [m.failureCounts[ip]]: zero when absent. *)
Definition count_of (ip : string) (fc : gmap string Z) : Z :=
  match fc !! ip with Some c => c | None => 0 end.

Definition IsBanned (now : Z) (ip : string) (m : IPBanManager) : bool :=
  if is_whitelisted ip m then false
  else match bannedIPs m !! ip with
       | None => false
       | Some expiry => if now >? expiry then false else true
       end.

Definition RecordFailure (now : Z) (ip : string) (m : IPBanManager) : IPBanManager :=
  if is_whitelisted ip m then m
  else
    let c := count_of ip (failureCounts m) + 1 in
    if c >=? maxFailures m
    then set_maps (<[ip := now + banDuration m]> (bannedIPs m))
                  (<[ip := c]> (bannedFailCount m))
                  (delete ip (<[ip := c]> (failureCounts m))) m
    else set_maps (bannedIPs m) (bannedFailCount m) (<[ip := c]> (failureCounts m)) m.

Definition RecordSuccess (ip : string) (m : IPBanManager) : IPBanManager :=
  set_maps (bannedIPs m) (bannedFailCount m) (delete ip (failureCounts m)) m.

Definition UnbanIP (ip : string) (m : IPBanManager) : IPBanManager :=
  set_maps (delete ip (bannedIPs m)) (delete ip (bannedFailCount m))
           (delete ip (failureCounts m)) m.

(** [GetBannedIPs]; Go's map iteration order is unspecified, the model
    uses [map_to_list]'s. *)
Definition GetBannedIPs (now : Z) (m : IPBanManager) : list string :=
  map fst (List.filter (fun '(_, expiry) => now <? expiry) (map_to_list (bannedIPs m))).

Definition GetFailureCount (ip : string) (m : IPBanManager) : Z :=
  count_of ip (failureCounts m).

(** One tick of [cleanupExpiredBans]. *)
Definition sweep (now : Z) (m : IPBanManager) : IPBanManager :=
  set_maps (filter (fun '(_, expiry) => ~ now > expiry) (bannedIPs m))
           (bannedFailCount m) (failureCounts m) m.

(** [saveToFile]: the records written to the file. *)
Definition ban_record (m : IPBanManager) (ip : string) (expiry : Z) : BanRecord :=
  mkBanRecord ip (Some (expiry - banDuration m)) (Some expiry)
    (match bannedFailCount m !! ip with Some c => c | None => 0 end).

Definition add_failure_record (records : list BanRecord) (entry : string * Z)
    : list BanRecord :=
  let '(ip, count) := entry in
  let found := existsb (fun r => String.eqb (IP r) ip) records in
  if negb found && (0 <? count)
  then records ++ [mkBanRecord ip None None count]
  else records.

Definition saveToFile (now : Z) (m : IPBanManager) : list BanRecord :=
  let records :=
    map (fun '(ip, expiry) => ban_record m ip expiry)
      (List.filter (fun '(_, expiry) => now <? expiry) (map_to_list (bannedIPs m))) in
  fold_left add_failure_record (map_to_list (failureCounts m)) records.

(** One iteration of the restore loop of [loadFromFile]. *)
Definition load_record (now : Z) (m : IPBanManager) (r : BanRecord) : IPBanManager :=
  match ExpiresAt r with
  | Some e =>
      if now <? e then
        set_maps (<[IP r := e]> (bannedIPs m))
                 (if 0 <? FailCount r then <[IP r := FailCount r]> (bannedFailCount m)
                  else bannedFailCount m)
                 (failureCounts m) m
      else if 0 <? FailCount r
      then set_maps (bannedIPs m) (bannedFailCount m)
                    (<[IP r := FailCount r]> (failureCounts m)) m
      else m
  | None =>
      if 0 <? FailCount r
      then set_maps (bannedIPs m) (bannedFailCount m)
                    (<[IP r := FailCount r]> (failureCounts m)) m
      else m
  end.

Definition loadFromFile (now : Z) (records : list BanRecord) (m : IPBanManager)
    : IPBanManager :=
  fold_left (load_record now) records m.

(** [NewIPBanManager]: the maps, then the persisted records if the file
    exists ([None]: file absent). *)
Definition NewIPBanManager (now : Z) (file : option (list BanRecord))
    (maxFailures banDuration : Z) (wl : list string) : IPBanManager :=
  let m := emptyManager maxFailures banDuration wl in
  match file with
  | Some records => loadFromFile now records m
  | None => m
  end.

End IPBan.

(* ------------------------------------------------------------------ *)
(** ** The token bucket of [golang.org/x/time/rate] *)

(** A model of [rate.Limiter] as [Allow] uses it.  Tokens are counted in
    billionths ([nano]) so that refilling at [limit] tokens per second
    over [elapsed] nanoseconds is the integer [elapsed * limit].  A fresh
    limiter has a zero [last] instant ([None]), so its first [advance]
    fills the bucket to [burst]. *)
Module Rate.

Definition nano : Z := 1000000000.

Record Limiter := mkLimiter {
  limit : Z;
  burst : Z;
  tokens : Z;
  last : option Z
}.

Definition NewLimiter (r : Z) (b : Z) : Limiter := mkLimiter r b 0 None.

Definition advance (now : Z) (l : Limiter) : Z :=
  match last l with
  | None => burst l * nano
  | Some lt =>
      let lt' := if now <? lt then now else lt in
      Z.min (burst l * nano) (tokens l + (now - lt') * limit l)
  end.

(** [Limiter.Allow] = [AllowN(now, 1)]: a reservation with no waiting. *)
Definition Allow (now : Z) (l : Limiter) : bool * Limiter :=
  if limit l =? 0 then
    if 1 <=? burst l then (true, mkLimiter (limit l) (burst l - 1) (tokens l) (last l))
    else (false, l)
  else
    let t := advance now l - nano in
    if (1 <=? burst l) && (0 <=? t)
    then (true, mkLimiter (limit l) (burst l) t (Some now))
    else (false, l).

End Rate.

(* ------------------------------------------------------------------ *)
(** ** [internal/middleware] *)

Module Middleware.

(** [auth.go] *)
Record AuthMiddleware := mkAuth {
  auth_enabled : bool;
  credentials : gmap string string
}.

Definition Authenticate (a : AuthMiddleware) (username password : string) : bool :=
  if negb (auth_enabled a) then true
  else match credentials a !! username with
       | None => false
       | Some expectedPassword => String.eqb expectedPassword password
       end.

(** [ratelimit.go].  A [*rate.Limiter] in the per-IP map is shared with
    the caller of [getIPLimiter]; the model writes the updated limiter
    back to the map, which is what the aliasing does. *)
Record RateLimitMiddleware := mkRateLimit {
  rl_enabled : bool;
  globalLimiter : option Rate.Limiter;
  perIPLimiters : gmap string Rate.Limiter;
  perIPLimit : Z;
  perIPBurst : Z
}.

Definition NewRateLimitMiddleware (enabled : bool) (globalRPS perIPRPS : Z)
    : RateLimitMiddleware :=
  mkRateLimit enabled
    (if enabled && (0 <? globalRPS)
     then Some (Rate.NewLimiter globalRPS (wrap64 (globalRPS * 2)))
     else None)
    ∅ perIPRPS (wrap64 (perIPRPS * 2)).

Definition set_global (g : option Rate.Limiter) (r : RateLimitMiddleware) :=
  mkRateLimit (rl_enabled r) g (perIPLimiters r) (perIPLimit r) (perIPBurst r).

Definition set_perIP (m : gmap string Rate.Limiter) (r : RateLimitMiddleware) :=
  mkRateLimit (rl_enabled r) (globalLimiter r) m (perIPLimit r) (perIPBurst r).

Definition getIPLimiter (ip : string) (r : RateLimitMiddleware)
    : Rate.Limiter * RateLimitMiddleware :=
  match perIPLimiters r !! ip with
  | Some limiter => (limiter, r)
  | None =>
      let limiter := Rate.NewLimiter (perIPLimit r) (perIPBurst r) in
      (limiter, set_perIP (<[ip := limiter]> (perIPLimiters r)) r)
  end.

Definition perIPAllow (now : Z) (ip : string) (r : RateLimitMiddleware)
    : bool * RateLimitMiddleware :=
  let '(limiter, r1) := getIPLimiter ip r in
  let '(ok, limiter') := Rate.Allow now limiter in
  (ok, set_perIP (<[ip := limiter']> (perIPLimiters r1)) r1).

Definition Allow (now : Z) (ip : string) (r : RateLimitMiddleware)
    : bool * RateLimitMiddleware :=
  if negb (rl_enabled r) then (true, r)
  else
    match globalLimiter r with
    | Some g =>
        let '(ok, g') := Rate.Allow now g in
        let r1 := set_global (Some g') r in
        if ok then perIPAllow now ip r1 else (false, r1)
    | None => perIPAllow now ip r
    end.

(** [breaker.go] of the middleware package. *)
Record CircuitBreakerMiddleware := mkCBMW {
  cb_enabled : bool;
  breaker : Breaker.CircuitBreaker
}.

Definition CB_IsOpen (now : Z) (c : CircuitBreakerMiddleware) : bool :=
  if negb (cb_enabled c) then false else Breaker.IsOpen now (breaker c).

Definition CB_RecordAuthFailure (now : Z) (c : CircuitBreakerMiddleware) :=
  if negb (cb_enabled c) then c
  else mkCBMW (cb_enabled c) (Breaker.RecordFailure now (breaker c)).

Definition CB_RecordAuthSuccess (now : Z) (c : CircuitBreakerMiddleware) :=
  if negb (cb_enabled c) then c
  else mkCBMW (cb_enabled c) (Breaker.RecordSuccess now (breaker c)).

(** [ipban.go] of the middleware package. *)
Record IPBanMiddleware := mkIPBanMW {
  ban_enabled : bool;
  manager : IPBan.IPBanManager
}.

Definition IsBlocked (now : Z) (ip : string) (i : IPBanMiddleware) : bool :=
  if negb (ban_enabled i) then false else IPBan.IsBanned now ip (manager i).

Definition RecordAuthFailure (now : Z) (ip : string) (i : IPBanMiddleware) :=
  if negb (ban_enabled i) then i
  else mkIPBanMW (ban_enabled i) (IPBan.RecordFailure now ip (manager i)).

Definition RecordAuthSuccess (ip : string) (i : IPBanMiddleware) :=
  if negb (ban_enabled i) then i
  else mkIPBanMW (ban_enabled i) (IPBan.RecordSuccess ip (manager i)).

End Middleware.

(* ------------------------------------------------------------------ *)
(** ** [internal/proxy]: state shared by both frontends *)

Module Proxy.
Import Middleware.

(** The four middlewares the server hands to both proxies. *)
Record Shared := mkShared {
  auth : AuthMiddleware;
  rateLimit : RateLimitMiddleware;
  ipBan : IPBanMiddleware;
  circuitBreaker : CircuitBreakerMiddleware
}.

Definition set_rateLimit (r : RateLimitMiddleware) (s : Shared) :=
  mkShared (auth s) r (ipBan s) (circuitBreaker s).

Definition set_feedback (i : IPBanMiddleware) (c : CircuitBreakerMiddleware) (s : Shared) :=
  mkShared (auth s) (rateLimit s) i c.

(** What a connection handler does to the outside world, in order.
    [EvDial network address] is [net.DialTimeout(network, address, 10s)];
    [EvRelay] is the bidirectional copy. *)
Inductive Event :=
| EvWrite (bytes : list byte)
| EvDial (network address : string)
| EvForward (method host : string)
| EvRelay.

(** Whether the dial of [address] on [network] succeeds: the outside
    world, an argument of the handlers. *)
Definition Dialer := string -> string -> bool.

Definition crlf : string := String (ascii_of_nat 13) (String (ascii_of_nat 10) EmptyString).
Definition dquote : string := String (ascii_of_nat 34) EmptyString.

(** [net.JoinHostPort]. *)
Definition JoinHostPort (host port : string) : string :=
  if Fmt.contains_char ":" host then "[" ++ host ++ "]:" ++ port
  else host ++ ":" ++ port.

End Proxy.

(* ------------------------------------------------------------------ *)
(** ** [encoding/base64]: [StdEncoding.DecodeString] *)

Module Base64.

Definition value (c : ascii) : option Z :=
  let n := Z.of_nat (nat_of_ascii c) in
  if (65 <=? n) && (n <=? 90) then Some (n - 65)
  else if (97 <=? n) && (n <=? 122) then Some (n - 71)
  else if (48 <=? n) && (n <=? 57) then Some (n + 4)
  else if n =? 43 then Some 62
  else if n =? 47 then Some 63
  else None.

Definition byte_of (n : Z) : byte :=
  match Byte.of_nat (Z.to_nat (n mod 256)) with Some b => b | None => x00 end.

Definition is_pad (c : ascii) : bool := Ascii.eqb c "=".

(** Quantum by quantum; padding is required and ends the input; bits
    below the last full byte are ignored (the non-strict decoder). *)
Fixpoint decode_quanta (s : list ascii) : option (list byte) :=
  match s with
  | [] => Some []
  | a :: b :: c :: d :: rest =>
      match value a, value b with
      | Some va, Some vb =>
          let b0 := byte_of (va * 4 + vb / 16) in
          if is_pad c then
            if is_pad d && (match rest with [] => true | _ => false end)
            then Some [b0] else None
          else match value c with
               | None => None
               | Some vc =>
                   let b1 := byte_of ((vb mod 16) * 16 + vc / 4) in
                   if is_pad d then
                     match rest with [] => Some [b0; b1] | _ => None end
                   else match value d with
                        | None => None
                        | Some vd =>
                            let b2 := byte_of ((vc mod 4) * 64 + vd) in
                            match decode_quanta rest with
                            | Some tl => Some (b0 :: b1 :: b2 :: tl)
                            | None => None
                            end
                        end
               end
      | _, _ => None
      end
  | _ => None
  end.

(** The decoder skips ['\r'] and ['\n']. *)
Definition DecodeString (s : string) : option string :=
  let cs := List.filter (fun c => negb (Ascii.eqb c (ascii_of_nat 13))
                                  && negb (Ascii.eqb c (ascii_of_nat 10)))
              (list_ascii_of_string s) in
  option_map string_of_list_byte (decode_quanta cs).

End Base64.

(* ------------------------------------------------------------------ *)
(** ** [internal/proxy/http.go] *)

Module HTTP.
Import Middleware Proxy.

(** The part of [*http.Request] the proxy reads.  [http.ReadRequest]
    (the parser) is outside the repository: the handler receives its
    result, [None] for a read or parse error.  Header keys are in
    canonical form, as [ReadRequest] stores them. *)
Record Request := mkRequest {
  Method : string;
  Host : string;
  Header : gmap string (list string)
}.

(** [Header.Get]: the first value, or the empty string. *)
Definition Header_Get (h : gmap string (list string)) (key : string) : string :=
  match h !! key with Some (v :: _) => v | _ => EmptyString end.

Record HTTPProxy := mkHTTPProxy { port : Z; network : string }.

Definition StatusText (code : Z) : string :=
  if code =? 403 then "Forbidden"
  else if code =? 429 then "Too Many Requests"
  else if code =? 502 then "Bad Gateway"
  else if code =? 503 then "Service Unavailable"
  else EmptyString.

(** The bytes [sendError] writes. *)
Definition sendError (statusCode : Z) (message : string) : list byte :=
  list_byte_of_string
    ("HTTP/1.1 " ++ Fmt.utoa statusCode ++ " " ++ StatusText statusCode ++ crlf ++
     "Content-Type: text/plain" ++ crlf ++
     "Content-Length: " ++ Fmt.utoa (Z.of_nat (String.length message)) ++ crlf ++
     crlf ++ message).

(** The bytes [sendProxyAuthRequired] writes. *)
Definition proxyAuthRequired : list byte :=
  list_byte_of_string
    ("HTTP/1.1 407 Proxy Authentication Required" ++ crlf ++
     "Proxy-Authenticate: Basic realm=" ++ dquote ++ "DuDu Proxy" ++ dquote ++ crlf ++
     "Content-Length: 0" ++ crlf ++ crlf).

Definition connectionEstablished : list byte :=
  list_byte_of_string ("HTTP/1.1 200 Connection Established" ++ crlf ++ crlf).

(** [strings.SplitN(s, ":", 2)] when it has two parts. *)
Fixpoint split_colon (s : string) : option (string * string) :=
  match s with
  | EmptyString => None
  | String c rest =>
      if Ascii.eqb c ":" then Some (EmptyString, rest)
      else match split_colon rest with
           | Some (u, p) => Some (String c u, p)
           | None => None
           end
  end.

Definition basicPrefix : string := "Basic ".

Definition parseProxyAuth (req : Request) : string * string * bool :=
  let a := Header_Get (Header req) "Proxy-Authorization" in
  if String.eqb a EmptyString then (EmptyString, EmptyString, false)
  else if negb (String.prefix basicPrefix a) then (EmptyString, EmptyString, false)
  else
    match Base64.DecodeString
            (substring (String.length basicPrefix)
                       (String.length a - String.length basicPrefix) a) with
    | None => (EmptyString, EmptyString, false)
    | Some decoded =>
        match split_colon decoded with
        | None => (EmptyString, EmptyString, false)
        | Some (u, p) => (u, p, true)
        end
    end.

Definition handleConnect (dial : Dialer) (h : HTTPProxy) (req : Request) : list Event :=
  if dial (network h) (Host req)
  then [EvDial (network h) (Host req); EvWrite connectionEstablished; EvRelay]
  else [EvDial (network h) (Host req);
        EvWrite (sendError 502 "Failed to connect to target")].

Definition handleHTTP (dial : Dialer) (h : HTTPProxy) (req : Request) : list Event :=
  let targetAddr :=
    if Fmt.contains_char ":" (Host req) then Host req
    else JoinHostPort (Host req) "80" in
  if dial (network h) targetAddr
  then [EvDial (network h) targetAddr; EvForward (Method req) targetAddr; EvRelay]
  else [EvDial (network h) targetAddr;
        EvWrite (sendError 502 "Failed to connect to target")].

(** [handleConnection] from [http.ReadRequest] on: the tail that runs
    once the three admission checks have passed. *)
Definition serve (now : Z) (dial : Dialer) (h : HTTPProxy) (s : Shared)
    (clientIP : string) (input : option Request) : Shared * list Event :=
  match input with
  | None => (s, [])
  | Some req =>
      let dispatch :=
        if String.eqb (Method req) "CONNECT" then handleConnect dial h req
        else handleHTTP dial h req in
      if auth_enabled (auth s) then
        let '(username, password, ok) := parseProxyAuth req in
        if negb ok || negb (Authenticate (auth s) username password) then
          (set_feedback (RecordAuthFailure now clientIP (ipBan s))
                        (CB_RecordAuthFailure now (circuitBreaker s)) s,
           [EvWrite proxyAuthRequired])
        else
          (set_feedback (RecordAuthSuccess clientIP (ipBan s))
                        (CB_RecordAuthSuccess now (circuitBreaker s)) s,
           dispatch)
      else (s, dispatch)
  end.

Definition handleConnection (now : Z) (dial : Dialer) (h : HTTPProxy) (s : Shared)
    (clientIP : string) (input : option Request) : Shared * list Event :=
  if CB_IsOpen now (circuitBreaker s) then
    (s, [EvWrite (sendError 503 "Service temporarily unavailable")])
  else if IsBlocked now clientIP (ipBan s) then
    (s, [EvWrite (sendError 403 "Access denied")])
  else
    let '(allowed, rl) := Allow now clientIP (rateLimit s) in
    let s1 := set_rateLimit rl s in
    if negb allowed then (s1, [EvWrite (sendError 429 "Too many requests")])
    else serve now dial h s1 clientIP input.

End HTTP.

(* ------------------------------------------------------------------ *)
(** ** [net.IP.String] *)

Module NetIP.

Definition to_Z (b : byte) : Z := Z.of_nat (Byte.to_nat b).

(** [net.IPv4(a, b, c, d).String()]. *)
Definition string4 (a b c d : byte) : string :=
  Fmt.utoa (to_Z a) ++ "." ++ Fmt.utoa (to_Z b) ++ "." ++
  Fmt.utoa (to_Z c) ++ "." ++ Fmt.utoa (to_Z d).

(** The eight 16-bit groups of a 16-byte address. *)
Fixpoint groups (bs : list byte) : list Z :=
  match bs with
  | hi :: lo :: rest => (to_Z hi * 256 + to_Z lo) :: groups rest
  | _ => []
  end.

Fixpoint zeros_from (fuel : nat) (gs : list Z) (j : nat) : nat :=
  match fuel with
  | O => j
  | S f => if (j <? 8)%nat && (nth j gs 1 =? 0) then zeros_from f gs (S j) else j
  end.

(** The first longest run of at least two zero groups, as
    [(zeroStart, zeroEnd)]; [(255, 255)] when there is none. *)
Definition zero_run (gs : list Z) : nat * nat :=
  fold_left (fun '(zs, ze) i =>
               let j := zeros_from 8 gs i in
               let l := (j - i)%nat in
               if (2 <=? l)%nat && (ze - zs <? l)%nat then (i, j) else (zs, ze))
            (seq 0 8) (255%nat, 255%nat).

Fixpoint print6 (fuel : nat) (gs : list Z) (zs ze i : nat) : string :=
  match fuel with
  | O => EmptyString
  | S f =>
      if (8 <=? i)%nat then EmptyString
      else if (i =? zs)%nat then
        "::" ++ (if (8 <=? ze)%nat then EmptyString
                 else Fmt.appendHex (nth ze gs 0) ++ print6 f gs zs ze (S ze))
      else (if (0 <? i)%nat then ":" else EmptyString) ++
           Fmt.appendHex (nth i gs 0) ++ print6 f gs zs ze (S i)
  end.

(** [appendTo6]. *)
Definition string6 (bs : list byte) : string :=
  let gs := groups bs in
  let '(zs, ze) := zero_run gs in
  print6 9 gs zs ze 0.

Definition is_zero (b : byte) : bool := Byte.eqb b x00.

(** [net.IP(addr).String()] for a 16-byte [addr]: an IPv4-mapped address
    prints in dotted form ([To4]), any other in IPv6 form. *)
Definition String16 (bs : list byte) : string :=
  match bs with
  | [b0; b1; b2; b3; b4; b5; b6; b7; b8; b9; b10; b11; b12; b13; b14; b15] =>
      if forallb is_zero [b0; b1; b2; b3; b4; b5; b6; b7; b8; b9]
         && Byte.eqb b10 xff && Byte.eqb b11 xff
      then string4 b12 b13 b14 b15
      else string6 bs
  | _ => "?"
  end.

End NetIP.

(* ------------------------------------------------------------------ *)
(** ** [internal/proxy/socks5.go] *)

Module SOCKS5.
Import Middleware Proxy.

(** A connection step: it reads the client's bytes, writes events,
    updates the shared middlewares, and fails ([None]) on an error
    return. *)
Record Conn := mkConn { shared : Shared; pending : list byte; events : list Event }.

Definition M (A : Type) := Conn -> Conn * option A.

Definition ret {A} (x : A) : M A := fun c => (c, Some x).
Definition bind {A B} (m : M A) (k : A -> M B) : M B :=
  fun c => match m c with
           | (c', Some x) => k x c'
           | (c', None) => (c', None)
           end.
Definition fail {A} : M A := fun c => (c, None).

Notation "x <- m ;; k" := (bind m (fun x => k)) (at level 65, m at next level, right associativity).
Notation "m ;;; k" := (bind m (fun _ => k)) (at level 65, right associativity).

(** [io.ReadFull(conn, make([]byte, n))]. *)
Definition readFull (n : nat) : M (list byte) :=
  fun c => if (n <=? length (pending c))%nat
           then (mkConn (shared c) (skipn n (pending c)) (events c), Some (firstn n (pending c)))
           else (mkConn (shared c) [] (events c), None).

Definition emit (e : Event) : M unit :=
  fun c => (mkConn (shared c) (pending c) (events c ++ [e]), Some tt).

Definition write (bs : list byte) : M unit := emit (EvWrite bs).

Definition modify (f : Shared -> Shared) : M unit :=
  fun c => (mkConn (f (shared c)) (pending c) (events c), Some tt).

Definition get_shared : M Shared := fun c => (c, Some (shared c)).

Definition socks5Version := x05.
Definition authNone := x00.
Definition authPassword := x02.
Definition authNoAccept := xff.
Definition cmdConnect := x01.
Definition atypIPv4 := x01.
Definition atypDomain := x03.
Definition atypIPv6 := x04.
Definition repSuccess := x00.
Definition repServerFailure := x01.
Definition repHostUnreachable := x04.
Definition repCommandNotSupported := x07.
Definition repAddressNotSupported := x08.

Record SOCKS5Proxy := mkSOCKS5Proxy { port : Z }.

Definition sendReply (rep : byte) : M unit :=
  write [socks5Version; rep; x00; x01; x00; x00; x00; x00; x00; x00].

Definition authenticatePassword (now : Z) (clientIP : string) : M unit :=
  buf <- readFull 2 ;;
  match buf with
  | [authVersion; usernameLen] =>
      if negb (Byte.eqb authVersion x01) then fail else
      username <- readFull (Byte.to_nat usernameLen) ;;
      passwordLenBuf <- readFull 1 ;;
      password <- readFull (Byte.to_nat (hd x00 passwordLenBuf)) ;;
      s <- get_shared ;;
      let authSuccess :=
        Authenticate (auth s) (string_of_list_byte username) (string_of_list_byte password) in
      (if authSuccess
       then modify (fun s => set_feedback (RecordAuthSuccess clientIP (ipBan s))
                                          (CB_RecordAuthSuccess now (circuitBreaker s)) s)
       else modify (fun s => set_feedback (RecordAuthFailure now clientIP (ipBan s))
                                          (CB_RecordAuthFailure now (circuitBreaker s)) s)) ;;;
      write [x01; if authSuccess then x00 else x01] ;;;
      (if authSuccess then ret tt else fail)
  | _ => fail
  end.

Definition handshake (now : Z) (clientIP : string) : M unit :=
  buf <- readFull 2 ;;
  match buf with
  | [version; nMethods] =>
      if negb (Byte.eqb version socks5Version) then fail else
      methods <- readFull (Byte.to_nat nMethods) ;;
      s <- get_shared ;;
      let selectedMethod :=
        if auth_enabled (auth s)
        then if existsb (Byte.eqb authPassword) methods then authPassword else authNoAccept
        else if existsb (Byte.eqb authNone) methods then authNone else authNoAccept in
      write [socks5Version; selectedMethod] ;;;
      if Byte.eqb selectedMethod authNoAccept then fail
      else if Byte.eqb selectedMethod authPassword then authenticatePassword now clientIP
      else ret tt
  | _ => fail
  end.

(** [io.ReadFull] in [handleRequest]: on a short read it replies
    [repServerFailure] and returns the error. *)
Definition readOrReply (n : nat) : M (list byte) :=
  fun c => match readFull n c with
           | (c', Some bs) => (c', Some bs)
           | (c', None) => (sendReply repServerFailure ;;; fail) c'
           end.

Definition handleRequest (dial : Dialer) : M unit :=
  buf <- readFull 4 ;;
  match buf with
  | [version; cmd; _; atyp] =>
      if negb (Byte.eqb version socks5Version) then sendReply repServerFailure ;;; fail else
      if negb (Byte.eqb cmd cmdConnect) then sendReply repCommandNotSupported ;;; fail else
      targetAddr <-
        (if Byte.eqb atyp atypIPv4 then
           addr <- readOrReply 4 ;;
           match addr with
           | [a; b; c; d] => ret (NetIP.string4 a b c d)
           | _ => fail
           end
         else if Byte.eqb atyp atypDomain then
           lenBuf <- readOrReply 1 ;;
           domain <- readOrReply (Byte.to_nat (hd x00 lenBuf)) ;;
           ret (string_of_list_byte domain)
         else if Byte.eqb atyp atypIPv6 then
           addr <- readOrReply 16 ;;
           ret (NetIP.String16 addr)
         else sendReply repAddressNotSupported ;;; fail) ;;
      portBuf <- readOrReply 2 ;;
      let targetPort := NetIP.to_Z (hd x00 portBuf) * 256 + NetIP.to_Z (nth 1 portBuf x00) in
      let target := (targetAddr ++ ":" ++ Fmt.utoa targetPort)%string in
      emit (EvDial "tcp" target) ;;;
      if dial "tcp" target
      then sendReply repSuccess ;;; emit EvRelay
      else sendReply repHostUnreachable ;;; fail
  | _ => fail
  end.

(** [handleConnection] from the handshake on: the tail that runs once
    the three admission checks have passed. *)
Definition serve (now : Z) (dial : Dialer) (s : Shared) (clientIP : string)
    (input : list byte) : Shared * list Event :=
  let '(c, _) := (handshake now clientIP ;;; handleRequest dial) (mkConn s input []) in
  (shared c, events c).

Definition handleConnection (now : Z) (dial : Dialer) (p : SOCKS5Proxy) (s : Shared)
    (clientIP : string) (input : list byte) : Shared * list Event :=
  if CB_IsOpen now (circuitBreaker s) then (s, [])
  else if IsBlocked now clientIP (ipBan s) then (s, [])
  else
    let '(allowed, rl) := Allow now clientIP (rateLimit s) in
    let s1 := set_rateLimit rl s in
    if negb allowed then (s1, [])
    else serve now dial s1 clientIP input.

End SOCKS5.

(* ------------------------------------------------------------------ *)
(** ** [internal/config]: [Validate] and [GetUserCredentials]

    The JSON decoding of [Load] is [encoding/json]'s and is not
    modelled; these functions start from the decoded [Config].  The
    [Log] section is not read by them and is left out. *)

Module Config.

Record User := mkUser { Username : string; Password : string }.

Record ServerConfig := mkServerConfig { HTTPPort : Z; SOCKS5Port : Z }.

Record AuthConfig := mkAuthConfig { auth_Enabled : bool; Users : list User }.

Record IPBanConfig := mkIPBanConfig {
  ipban_Enabled : bool;
  MaxFailures : Z;
  BanDurationSeconds : Z;
  Whitelist : list string
}.

Record RateLimitConfig := mkRateLimitConfig {
  ratelimit_Enabled : bool;
  GlobalRequestsPerSecond : Z;
  PerIPRequestsPerSecond : Z
}.

Record CircuitBreakerConfig := mkCircuitBreakerConfig {
  breaker_Enabled : bool;
  FailureThresholdPercent : Z;
  WindowSizeSeconds : Z;
  MinRequests : Z;
  BreakDurationSeconds : Z
}.

Record Config := mkConfig {
  Server : ServerConfig;
  Auth : AuthConfig;
  IPBanCfg : IPBanConfig;
  RateLimitCfg : RateLimitConfig;
  CircuitBreakerCfg : CircuitBreakerConfig
}.

(** The errors of [Validate], one per [fmt.Errorf] site; the two port
    errors carry the [%d] argument. *)
Inductive ValidationError :=
| ErrHTTPPort (port : Z)
| ErrSOCKS5Port (port : Z)
| ErrNoUsers
| ErrMaxFailures
| ErrBanDuration
| ErrGlobalRPS
| ErrPerIPRPS
| ErrThresholdPercent
| ErrWindowSize
| ErrMinRequests
| ErrBreakDuration.

(** [Validate]: [None] is a nil error. *)
Definition Validate (c : Config) : option ValidationError :=
  let sv := Server c in
  let a := Auth c in
  let ib := IPBanCfg c in
  let rl := RateLimitCfg c in
  let cb := CircuitBreakerCfg c in
  if (HTTPPort sv <=? 0) || (65535 <? HTTPPort sv) then Some (ErrHTTPPort (HTTPPort sv))
  else if (SOCKS5Port sv <=? 0) || (65535 <? SOCKS5Port sv) then Some (ErrSOCKS5Port (SOCKS5Port sv))
  else if auth_Enabled a && (length (Users a) =? 0)%nat then Some ErrNoUsers
  else if ipban_Enabled ib && (MaxFailures ib <=? 0) then Some ErrMaxFailures
  else if ipban_Enabled ib && (BanDurationSeconds ib <=? 0) then Some ErrBanDuration
  else if ratelimit_Enabled rl && (GlobalRequestsPerSecond rl <=? 0) then Some ErrGlobalRPS
  else if ratelimit_Enabled rl && (PerIPRequestsPerSecond rl <=? 0) then Some ErrPerIPRPS
  else if breaker_Enabled cb && ((FailureThresholdPercent cb <=? 0) || (100 <? FailureThresholdPercent cb))
    then Some ErrThresholdPercent
  else if breaker_Enabled cb && (WindowSizeSeconds cb <=? 0) then Some ErrWindowSize
  else if breaker_Enabled cb && (MinRequests cb <=? 0) then Some ErrMinRequests
  else if breaker_Enabled cb && (BreakDurationSeconds cb <=? 0) then Some ErrBreakDuration
  else None.

(** [GetUserCredentials]: a later user with the same name overwrites an
    earlier one. *)
Definition GetUserCredentials (c : Config) : gmap string string :=
  fold_left (fun m u => <[Username u := Password u]> m) (Users (Auth c)) ∅.

End Config.

(* ------------------------------------------------------------------ *)
(** ** [internal/server]: the middlewares [NewServer] builds *)

Module Server.
Import Middleware Proxy.

(** [time.Duration(n) * time.Second]: an [int64] product, wrapping. *)
Definition seconds (n : Z) : Z := wrap64 (n * 1000000000).

(** The shared middlewares of [NewServer] at instant [now], with [file]
    the content of the persistence file ([None] when it is absent).  The
    two proxies are built around them. *)
Definition NewServer_shared (now : Z) (file : option (list IPBan.BanRecord))
    (cfg : Config.Config) : Shared :=
  let ib := Config.IPBanCfg cfg in
  let rl := Config.RateLimitCfg cfg in
  let cb := Config.CircuitBreakerCfg cfg in
  let ipBanMgr := IPBan.NewIPBanManager now file (Config.MaxFailures ib)
                    (seconds (Config.BanDurationSeconds ib)) (Config.Whitelist ib) in
  let circuitBreaker :=
    Breaker.NewCircuitBreaker now (Config.FailureThresholdPercent cb)
      (seconds (Config.WindowSizeSeconds cb)) (Config.MinRequests cb)
      (seconds (Config.BreakDurationSeconds cb)) in
  mkShared (mkAuth (Config.auth_Enabled (Config.Auth cfg)) (Config.GetUserCredentials cfg))
    (NewRateLimitMiddleware (Config.ratelimit_Enabled rl)
       (Config.GlobalRequestsPerSecond rl) (Config.PerIPRequestsPerSecond rl))
    (mkIPBanMW (Config.ipban_Enabled ib) ipBanMgr)
    (mkCBMW (Config.breaker_Enabled cb) circuitBreaker).

End Server.

(* ------------------------------------------------------------------ *)
(** ** The properties' vocabulary *)

Module Spec.
Import Middleware Proxy.

(** Consecutive [RecordFailure ip] calls at the instants [ts]. *)
Definition fails (ip : string) (ts : list Z) (m : IPBan.IPBanManager) : IPBan.IPBanManager :=
  fold_left (fun m t => IPBan.RecordFailure t ip m) ts m.

(** Operations on the ban tracker, with the instant of each call. *)
Inductive BanOp :=
| OpFailure (ip : string)
| OpSuccess (ip : string)
| OpUnban (ip : string).

Definition apply_op (m : IPBan.IPBanManager) (op : Z * BanOp) : IPBan.IPBanManager :=
  match op with
  | (now, OpFailure ip) => IPBan.RecordFailure now ip m
  | (_, OpSuccess ip) => IPBan.RecordSuccess ip m
  | (_, OpUnban ip) => IPBan.UnbanIP ip m
  end.

Definition run_ops (ops : list (Z * BanOp)) (m : IPBan.IPBanManager) : IPBan.IPBanManager :=
  fold_left apply_op ops m.

(** No IP has a failure count and a ban that is unexpired at [now]
    ([IsBanned]'s notion: expired means [now > expiry]). *)
Definition exclusive (now : Z) (m : IPBan.IPBanManager) : Prop :=
  forall ip c e, IPBan.failureCounts m !! ip = Some c ->
                 IPBan.bannedIPs m !! ip = Some e -> e < now.

(** Ban-tracker states reachable at instant [t] when time only moves
    forward and [RecordFailure ip] is only called at an instant when
    [ip] is not banned. *)
Inductive reach_admitted : Z -> IPBan.IPBanManager -> Prop :=
| ra_init t mf bd wl : reach_admitted t (IPBan.emptyManager mf bd wl)
| ra_wait t t' m : reach_admitted t m -> t <= t' -> reach_admitted t' m
| ra_failure t ip m : reach_admitted t m -> IPBan.IsBanned t ip m = false ->
    reach_admitted t (IPBan.RecordFailure t ip m)
| ra_success t ip m : reach_admitted t m -> reach_admitted t (IPBan.RecordSuccess ip m)
| ra_unban t ip m : reach_admitted t m -> reach_admitted t (IPBan.UnbanIP ip m).

Definition positive (o : option Z) : option Z :=
  match o with Some c => if 0 <? c then Some c else None | None => None end.

(** The failure count of [ip] after saving [m] at [ts] and loading the
    file into a fresh manager at [tl]. *)
Definition restored_failure_count (ts tl : Z) (m : IPBan.IPBanManager) (ip : string)
    : option Z :=
  match IPBan.bannedIPs m !! ip with
  | Some e =>
      if ts <? e then
        if tl <? e then None else positive (IPBan.bannedFailCount m !! ip)
      else positive (IPBan.failureCounts m !! ip)
  | None => positive (IPBan.failureCounts m !! ip)
  end.

(** Save at [ts], restart, load at [tl] with the same configuration. *)
Definition round_trip (ts tl : Z) (m : IPBan.IPBanManager) : IPBan.IPBanManager :=
  IPBan.NewIPBanManager tl (Some (IPBan.saveToFile ts m))
    (IPBan.maxFailures m) (IPBan.banDuration m) (elements (IPBan.whitelist m)).

(** [allow(ip)] in the words of the rate-limiter specification, for a
    limiter whose per-IP buckets are created with rate [perIPRPS] and
    burst [perIPBurst]. *)
Definition Allow_spec_with (perIPRPS perIPBurst now : Z) (ip : string)
    (r : RateLimitMiddleware) : bool * RateLimitMiddleware :=
  let per_ip r :=
    let bucket :=
      match perIPLimiters r !! ip with
      | Some b => b
      | None => Rate.NewLimiter perIPRPS perIPBurst
      end in
    let '(ok, bucket') := Rate.Allow now bucket in
    (ok, set_perIP (<[ip := bucket']> (perIPLimiters r)) r) in
  if negb (rl_enabled r) then (true, r)
  else match globalLimiter r with
       | None => per_ip r
       | Some g =>
           let '(ok, g') := Rate.Allow now g in
           if ok then per_ip (set_global (Some g') r) else (false, set_global (Some g') r)
       end.

(** The specification's burst: [2 * perIPRPS]. *)
Definition Allow_spec (perIPRPS now : Z) (ip : string) (r : RateLimitMiddleware) :=
  Allow_spec_with perIPRPS (2 * perIPRPS) now ip r.

(** The burst as the Go [int] product [perIPRPS * 2], wrapping. *)
Definition Allow_spec_int64 (perIPRPS now : Z) (ip : string) (r : RateLimitMiddleware) :=
  Allow_spec_with perIPRPS (wrap64 (perIPRPS * 2)) now ip r.

(** Every per-IP bucket has the configured rate and burst, the
    invariant [Allow] keeps when the rate is not zero (a zero-rate bucket
    spends its burst). *)
Definition buckets_configured (r : RateLimitMiddleware) : Prop :=
  forall ip b, perIPLimiters r !! ip = Some b ->
    Rate.limit b = perIPLimit r /\ Rate.burst b = perIPBurst r.


Definition run_allows (calls : list (Z * string)) (r : RateLimitMiddleware)
    : RateLimitMiddleware :=
  fold_left (fun r '(now, ip) => snd (Allow now ip r)) calls r.

(** The admission pipeline as the specification orders it. *)
Inductive Admission :=
| Rejected (status : Z) (s : Shared)
| Accepted (s : Shared).

Definition admission_spec (now : Z) (clientIP : string) (s : Shared) : Admission :=
  if CB_IsOpen now (circuitBreaker s) then Rejected 503 s
  else if IsBlocked now clientIP (ipBan s) then Rejected 403 s
  else let '(ok, rl) := Allow now clientIP (rateLimit s) in
       if ok then Accepted (set_rateLimit rl s) else Rejected 429 (set_rateLimit rl s).

Definition rejectMessage (status : Z) : string :=
  if status =? 503 then "Service temporarily unavailable"
  else if status =? 403 then "Access denied"
  else "Too many requests".

(** The events of an HTTP exchange carry their dial targets. *)
Definition dials (evs : list Event) : list (string * string) :=
  flat_map (fun e => match e with EvDial n a => [(n, a)] | _ => [] end) evs.

(** The records of a file that concern [ip]. *)
Definition records_of (ip : string) (rs : list IPBan.BanRecord) : list IPBan.BanRecord :=
  List.filter (fun r => String.eqb (IPBan.IP r) ip) rs.

(** What [load_record] does to the [bannedIPs] and [failureCounts]
    entries of the record's own IP. *)
Definition load_ban (now : Z) (r : IPBan.BanRecord) (o : option Z) : option Z :=
  match IPBan.ExpiresAt r with
  | Some e => if now <? e then Some e else o
  | None => o
  end.

Definition load_count (now : Z) (r : IPBan.BanRecord) (o : option Z) : option Z :=
  match IPBan.ExpiresAt r with
  | Some e => if now <? e then o else if 0 <? IPBan.FailCount r then Some (IPBan.FailCount r) else o
  | None => if 0 <? IPBan.FailCount r then Some (IPBan.FailCount r) else o
  end.

(** Every dial recorded so far uses the network [n]. *)
Definition dials_on (n : string) (evs : list Event) : Prop :=
  Forall (fun d => fst d = n) (dials evs).

(** A SOCKS5 step that only ever dials on [n]. *)
Definition keeps_dials_on {A} (n : string) (m : SOCKS5.M A) : Prop :=
  forall c, dials_on n (SOCKS5.events c) -> dials_on n (SOCKS5.events (fst (m c))).

(** The text after the ["Basic "] scheme, as [parseProxyAuth] decodes it. *)
Definition basic_payload (a : string) : string :=
  substring (String.length HTTP.basicPrefix)
            (String.length a - String.length HTTP.basicPrefix) a.

(** A [Proxy-Authorization] value that is absent, not of the Basic
    scheme, not valid base64, or decodes to a text without a colon. *)
Definition credentials_malformed (a : string) : Prop :=
  a = EmptyString \/
  String.prefix HTTP.basicPrefix a = false \/
  Base64.DecodeString (basic_payload a) = None \/
  (exists d, Base64.DecodeString (basic_payload a) = Some d /\ Fmt.contains_char ":" d = false).

(** Requests with well-formed but rejected credentials. *)
Definition credentials_wrong (a : AuthMiddleware) (req : HTTP.Request) : bool :=
  let '(username, password, ok) := HTTP.parseProxyAuth req in
  ok && negb (Authenticate a username password).

(** The same request handled after admission at each instant of [ts]. *)
Definition serve_repeat (dial : Dialer) (h : HTTP.HTTPProxy) (clientIP : string)
    (req : HTTP.Request) (ts : list Z) (s : Shared) : Shared :=
  fold_left (fun s t => fst (HTTP.serve t dial h s clientIP (Some req))) ts s.

(** A SOCKS5 step that records no dial. *)
Definition no_dial {A} (m : SOCKS5.M A) : Prop :=
  forall c, dials (SOCKS5.events (fst (m c))) = dials (SOCKS5.events c).

(** [n] consecutive [RecordFailure] calls at the same instant [t]. *)
Definition failures_at (t : Z) (n : nat) (cb : Breaker.CircuitBreaker) : Breaker.CircuitBreaker :=
  Nat.iter n (Breaker.RecordFailure t) cb.

(** Authentication failures of one IP reported to the ban middleware. *)
Definition auth_failures (ip : string) (ts : list Z) (i : IPBanMiddleware) : IPBanMiddleware :=
  fold_left (fun i t => RecordAuthFailure t ip i) ts i.

End Spec.

(* ================================================================== *)
(** * Properties *)

Import Middleware Proxy Spec.

(* ------------------------------------------------------------------ *)
(** ** Circuit breaker *)

(** Fixtures: a shared state with every middleware disabled, and the
    SOCKS5 CONNECT of scenario 4 (no-auth greeting, IPv6 [::1], port 80). *)
Definition open_shared : Shared :=
  mkShared (mkAuth false ∅) (NewRateLimitMiddleware false 0 0)
    (mkIPBanMW false (IPBan.emptyManager 3 300 []))
    (mkCBMW false (Breaker.NewCircuitBreaker 0 50 60000000000 20 1000000000)).

Definition ipv6_loopback : list byte :=
  [x00; x00; x00; x00; x00; x00; x00; x00; x00; x00; x00; x00; x00; x00; x00; x01].

Definition socks5_ipv6_connect : list byte :=
  [x05; x01; x00; x05; x01; x00; x04] ++ ipv6_loopback ++ [x00; x50].

Definition http_connect_request : HTTP.Request :=
  HTTP.mkRequest "CONNECT" "example.com:443" ∅.

Definition dial_all : Dialer := fun _ _ => true.

(** An HTTP request with no headers, and a shared state with
    authentication and IP banning on (three failures, 300 s). *)
Definition bare_request : HTTP.Request := HTTP.mkRequest "GET" "example.com" ∅.

Definition auth_ban_shared (wl : list string) : Shared :=
  mkShared (mkAuth true {[ "user1" := "pass1" ]}) (NewRateLimitMiddleware false 0 0)
    (mkIPBanMW true (IPBan.emptyManager 3 300 wl))
    (mkCBMW false (Breaker.NewCircuitBreaker 0 50 60000000000 20 1000000000)).

(** The breaker of [TestCircuitBreaker_HalfOpen]: threshold 50%, window
    1s, 5 minimum requests, break 500ms; 3 successes, then 5 failures. *)
Definition test_breaker_opened : Breaker.CircuitBreaker :=
  let cb := Breaker.NewCircuitBreaker 0 50 1000000000 5 500000000 in
  let cb := Breaker.RecordSuccess 0 (Breaker.RecordSuccess 0 (Breaker.RecordSuccess 0 cb)) in
  Breaker.RecordFailure 0 (Breaker.RecordFailure 0 (Breaker.RecordFailure 0
    (Breaker.RecordFailure 0 (Breaker.RecordFailure 0 cb)))).

Definition after_break : Z := 600000000.

(** Claim C1 (code_bug).  Once [break_duration] has elapsed since the
    breaker opened, [GetState] reports HalfOpen, but the state field
    stays Open: three [RecordSuccess] calls leave [GetState] at HalfOpen
    (not Closed) and the field at Open, and one [RecordFailure] neither
    reopens the breaker nor refreshes [lastStateChange]. *)
Theorem breaker_recovery_not_committed :
  Breaker.GetState 0 test_breaker_opened = Breaker.StateOpen /\
  Breaker.GetState after_break test_breaker_opened = Breaker.StateHalfOpen /\
  (let cb := Breaker.RecordSuccess after_break (Breaker.RecordSuccess after_break
               (Breaker.RecordSuccess after_break test_breaker_opened)) in
   Breaker.GetState after_break cb = Breaker.StateHalfOpen /\
   Breaker.state cb = Breaker.StateOpen /\
   Breaker.lastStateChange cb = 0) /\
  (let cb := Breaker.RecordFailure after_break test_breaker_opened in
   Breaker.state cb = Breaker.StateOpen /\
   Breaker.lastStateChange cb = 0 /\
   Breaker.IsOpen after_break cb = false).
Proof. vm_compute. repeat split. Qed.

(* ------------------------------------------------------------------ *)
(** ** Admission pipeline *)

(** Claim C2.  Both frontends run the admission checks of
    [admission_spec] (breaker open, then banned, then rate limit, each
    only when the previous passed; only the last touches the rate
    limiter) before reading anything from the client: the HTTP frontend
    answers a rejection with [sendError] of 503, 403 or 429, the SOCKS5
    frontend closes without writing. *)
Theorem admission_pipeline_order :
  forall now dial (h : HTTP.HTTPProxy) (p : SOCKS5.SOCKS5Proxy) s clientIP req input,
    HTTP.handleConnection now dial h s clientIP req =
      match admission_spec now clientIP s with
      | Rejected status s' => (s', [EvWrite (HTTP.sendError status (rejectMessage status))])
      | Accepted s' => HTTP.serve now dial h s' clientIP req
      end /\
    SOCKS5.handleConnection now dial p s clientIP input =
      match admission_spec now clientIP s with
      | Rejected _ s' => (s', [])
      | Accepted s' => SOCKS5.serve now dial s' clientIP input
      end.
Proof.
  intros. unfold HTTP.handleConnection, SOCKS5.handleConnection, admission_spec.
  destruct (CB_IsOpen now (circuitBreaker s)); [split; reflexivity |].
  destruct (IsBlocked now clientIP (ipBan s)); [split; reflexivity |].
  destruct (Allow now clientIP (rateLimit s)) as [[|] rl]; split; reflexivity.
Qed.

(* ------------------------------------------------------------------ *)
(** ** Ban tracker: threshold and whitelist *)

Lemma fails_cons ip t ts m : fails ip (t :: ts) m = fails ip ts (IPBan.RecordFailure t ip m).
Proof. reflexivity. Qed.

Lemma fails_app ip ts ts' m : fails ip (ts ++ ts') m = fails ip ts' (fails ip ts m).
Proof. unfold fails. apply fold_left_app. Qed.

(** Below the threshold, failures only count. *)
Lemma fails_below_threshold ip ts : forall m k,
  ip ∉ IPBan.whitelist m ->
  IPBan.bannedIPs m !! ip = None ->
  IPBan.count_of ip (IPBan.failureCounts m) = k ->
  k + Z.of_nat (length ts) < IPBan.maxFailures m ->
  IPBan.bannedIPs (fails ip ts m) !! ip = None /\
  IPBan.count_of ip (IPBan.failureCounts (fails ip ts m)) = k + Z.of_nat (length ts) /\
  IPBan.maxFailures (fails ip ts m) = IPBan.maxFailures m /\
  IPBan.banDuration (fails ip ts m) = IPBan.banDuration m /\
  IPBan.whitelist (fails ip ts m) = IPBan.whitelist m.
Proof.
  induction ts as [|t ts IH]; intros m k Hwl Hban Hc Hlt.
  - simpl. rewrite Hc. repeat split; [assumption | lia].
  - rewrite fails_cons. simpl length in Hlt.
    assert (Hstep : IPBan.RecordFailure t ip m =
              IPBan.set_maps (IPBan.bannedIPs m) (IPBan.bannedFailCount m)
                (<[ip := k + 1]> (IPBan.failureCounts m)) m).
    { unfold IPBan.RecordFailure, IPBan.is_whitelisted.
      rewrite bool_decide_false by assumption. rewrite Hc.
      destruct (k + 1 >=? IPBan.maxFailures m) eqn:E; [lia | reflexivity]. }
    rewrite Hstep.
    destruct (IH (IPBan.set_maps (IPBan.bannedIPs m) (IPBan.bannedFailCount m)
                    (<[ip := k + 1]> (IPBan.failureCounts m)) m) (k + 1))
      as (H1 & H2 & H3 & H4 & H5); simpl; try assumption.
    + unfold IPBan.count_of. rewrite lookup_insert_eq. reflexivity.
    + lia.
    + repeat split; try assumption. rewrite H2. lia.
Qed.

(** At the threshold, the last failure bans until [t + banDuration]. *)
Lemma fails_threshold_ban (m : IPBan.IPBanManager) ip (ts : list Z) t q :
  ip ∉ IPBan.whitelist m ->
  1 <= IPBan.maxFailures m ->
  IPBan.bannedIPs m !! ip = None ->
  IPBan.failureCounts m !! ip = None ->
  Z.of_nat (length ts) = IPBan.maxFailures m - 1 ->
  q <= t + IPBan.banDuration m ->
  IPBan.IsBanned q ip (fails ip (ts ++ [t]) m) = true.
Proof.
  intros Hwl Hmf Hban Hfc Hlen Hq.
  destruct (fails_below_threshold ip ts m 0 Hwl Hban) as (H1 & H2 & H3 & H4 & H5).
  { unfold IPBan.count_of. rewrite Hfc. reflexivity. }
  { lia. }
  rewrite fails_app. simpl.
  unfold IPBan.RecordFailure at 1, IPBan.is_whitelisted. rewrite H5.
  rewrite bool_decide_false by assumption. rewrite H2, H3.
  replace (0 + Z.of_nat (length ts) + 1 >=? IPBan.maxFailures m) with true by lia.
  unfold IPBan.IsBanned, IPBan.is_whitelisted. simpl. rewrite H5.
  rewrite bool_decide_false by assumption. rewrite lookup_insert_eq, H4.
  replace (q >? t + IPBan.banDuration m) with false by lia. reflexivity.
Qed.

(** Claim C3.  For a non-whitelisted IP with no ban and no failure
    count, [maxFailures - 1] consecutive failures leave it unbanned, and
    one more failure at [t] bans it for every query up to
    [t + banDuration]. *)
Theorem ban_threshold :
  forall (m : IPBan.IPBanManager) ip (ts : list Z) t q q',
    ip ∉ IPBan.whitelist m ->
    1 <= IPBan.maxFailures m ->
    IPBan.bannedIPs m !! ip = None ->
    IPBan.failureCounts m !! ip = None ->
    Z.of_nat (length ts) = IPBan.maxFailures m - 1 ->
    IPBan.IsBanned q ip (fails ip ts m) = false /\
    (q' <= t + IPBan.banDuration m -> IPBan.IsBanned q' ip (fails ip (ts ++ [t]) m) = true).
Proof.
  intros m ip ts t q q' Hwl Hmf Hban Hfc Hlen.
  destruct (fails_below_threshold ip ts m 0 Hwl Hban) as (H1 & H2 & H3 & H4 & H5).
  { unfold IPBan.count_of. rewrite Hfc. reflexivity. }
  { lia. }
  split.
  - unfold IPBan.IsBanned. rewrite H1. destruct (IPBan.is_whitelisted ip _); reflexivity.
  - intros Hq. apply fails_threshold_ban; assumption.
Qed.

Lemma ban_threshold_witness :
  IPBan.IsBanned 5 "10.0.0.1" (fails "10.0.0.1" [0; 1] (IPBan.emptyManager 3 300 [])) = false /\
  (100 <= 2 + IPBan.banDuration (IPBan.emptyManager 3 300 []) ->
   IPBan.IsBanned 100 "10.0.0.1" (fails "10.0.0.1" ([0; 1] ++ [2]) (IPBan.emptyManager 3 300 [])) = true).
Proof.
  apply (ban_threshold (IPBan.emptyManager 3 300 []) "10.0.0.1" [0; 1] 2 5 100).
  - simpl. set_solver.
  - simpl. lia.
  - reflexivity.
  - reflexivity.
  - reflexivity.
Defined.

(** Claim C8.  For a whitelisted IP, any number of [RecordFailure] calls
    leaves the whole manager unchanged (so the IP enters none of the
    three maps), and [IsBanned] is false at every instant. *)
Theorem whitelist_immunity :
  forall (m : IPBan.IPBanManager) ip (ts : list Z) q,
    ip ∈ IPBan.whitelist m ->
    fails ip ts m = m /\ IPBan.IsBanned q ip (fails ip ts m) = false.
Proof.
  intros m ip ts q Hwl.
  assert (Hfix : fails ip ts m = m).
  { induction ts as [|t ts IH]; [reflexivity |].
    rewrite fails_cons.
    unfold IPBan.RecordFailure at 1, IPBan.is_whitelisted.
    rewrite bool_decide_true by assumption. exact IH. }
  split; [exact Hfix |]. rewrite Hfix.
  unfold IPBan.IsBanned, IPBan.is_whitelisted. rewrite bool_decide_true by assumption.
  reflexivity.
Qed.

Lemma whitelist_immunity_witness :
  let m := IPBan.emptyManager 3 300 ["192.168.1.1"] in
  fails "192.168.1.1" [0; 1; 2; 3; 4] m = m /\
  IPBan.IsBanned 10 "192.168.1.1" (fails "192.168.1.1" [0; 1; 2; 3; 4] m) = false.
Proof.
  apply whitelist_immunity. simpl. set_solver.
Defined.

(* ------------------------------------------------------------------ *)
(** ** Rate limiter *)

Lemma Allow_keeps_config now ip r :
  perIPLimit (snd (Allow now ip r)) = perIPLimit r /\
  perIPBurst (snd (Allow now ip r)) = perIPBurst r.
Proof.
  unfold Allow, perIPAllow, getIPLimiter.
  destruct (rl_enabled r); simpl; [| split; reflexivity].
  destruct (globalLimiter r) as [g|].
  - destruct (Rate.Allow now g) as [[|] g']; simpl; [| split; reflexivity].
    destruct (perIPLimiters r !! ip); simpl;
      (destruct (Rate.Allow _ _); split; reflexivity).
  - destruct (perIPLimiters r !! ip); simpl;
      (destruct (Rate.Allow _ _); split; reflexivity).
Qed.

Lemma run_allows_config calls : forall r,
  perIPLimit (run_allows calls r) = perIPLimit r /\
  perIPBurst (run_allows calls r) = perIPBurst r.
Proof.
  induction calls as [|[now ip] calls IH]; intros r; [split; reflexivity |].
  simpl. destruct (IH (snd (Allow now ip r))) as [H1 H2].
  destruct (Allow_keeps_config now ip r) as [H3 H4].
  split; congruence.
Qed.

Lemma perIPAllow_spec now ip r p b :
  perIPLimit r = p -> perIPBurst r = b ->
  perIPAllow now ip r =
    let bucket :=
      match perIPLimiters r !! ip with
      | Some b => b
      | None => Rate.NewLimiter p b
      end in
    let '(ok, bucket') := Rate.Allow now bucket in
    (ok, set_perIP (<[ip := bucket']> (perIPLimiters r)) r).
Proof.
  intros Hl Hb. unfold perIPAllow, getIPLimiter.
  destruct (perIPLimiters r !! ip) as [b'|] eqn:E; simpl.
  - reflexivity.
  - rewrite Hl, Hb.
    destruct (Rate.Allow now (Rate.NewLimiter p b)) as [ok b''].
    simpl. rewrite insert_insert_eq. reflexivity.
Qed.

Lemma Rate_Allow_keeps now l :
  Rate.limit l <> 0 ->
  Rate.limit (snd (Rate.Allow now l)) = Rate.limit l /\
  Rate.burst (snd (Rate.Allow now l)) = Rate.burst l.
Proof.
  intros Hl. unfold Rate.Allow. rewrite (proj2 (Z.eqb_neq _ 0) Hl).
  destruct (_ && _); split; reflexivity.
Qed.

Lemma Allow_buckets_configured now ip r :
  perIPLimit r <> 0 -> buckets_configured r -> buckets_configured (snd (Allow now ip r)).
Proof.
  intros Hl Hc.
  assert (Hper : forall r', perIPLimit r' = perIPLimit r -> perIPBurst r' = perIPBurst r ->
                 perIPLimiters r' = perIPLimiters r ->
                 buckets_configured (snd (perIPAllow now ip r'))).
  { intros r' E1 E2 E3. unfold perIPAllow, getIPLimiter.
    assert (Hb : forall b, perIPLimiters r' !! ip = Some b ->
                 Rate.limit b = perIPLimit r /\ Rate.burst b = perIPBurst r).
    { intros b Hb. rewrite E3 in Hb. exact (Hc ip b Hb). }
    destruct (perIPLimiters r' !! ip) as [b|] eqn:E.
    - destruct (Hb b eq_refl) as [Hbl Hbb].
      destruct (Rate_Allow_keeps now b) as [K1 K2]; [congruence |].
      destruct (Rate.Allow now b) as [ok b'] eqn:Ea. cbn [snd] in K1, K2 |- *.
      intros ip' c. cbn [perIPLimiters set_perIP perIPLimit perIPBurst].
      destruct (decide (ip' = ip)) as [-> | Hne].
      + rewrite lookup_insert_eq. intros [= <-]. split; congruence.
      + rewrite lookup_insert_ne by congruence. rewrite E3. intros Hx.
        destruct (Hc ip' c Hx). split; congruence.
    - destruct (Rate_Allow_keeps now (Rate.NewLimiter (perIPLimit r') (perIPBurst r')))
        as [K1 K2]; [cbn; congruence |].
      destruct (Rate.Allow now _) as [ok b'] eqn:Ea. cbn [snd] in K1, K2 |- *.
      intros ip' c. cbn [perIPLimiters set_perIP perIPLimit perIPBurst].
      rewrite insert_insert_eq.
      destruct (decide (ip' = ip)) as [-> | Hne].
      + rewrite lookup_insert_eq. intros [= <-]. cbn in K1, K2. split; congruence.
      + rewrite lookup_insert_ne by congruence. rewrite E3. intros Hx.
        destruct (Hc ip' c Hx). split; congruence. }
  unfold Allow. destruct (rl_enabled r); [| exact Hc].
  destruct (globalLimiter r) as [g|].
  - destruct (Rate.Allow now g) as [[|] g']; [| exact Hc].
    apply Hper; reflexivity.
  - apply Hper; reflexivity.
Qed.

Lemma run_allows_buckets_configured calls : forall r,
  perIPLimit r <> 0 -> buckets_configured r -> buckets_configured (run_allows calls r).
Proof.
  induction calls as [|[now ip] calls IH]; intros r Hl Hc; [exact Hc |].
  simpl. apply IH.
  - rewrite (proj1 (Allow_keeps_config now ip r)). exact Hl.
  - apply Allow_buckets_configured; assumption.
Qed.

Lemma wrap64_small z : - 2 ^ 63 <= z < 2 ^ 63 -> wrap64 z = z.
Proof. intros Hz. unfold wrap64. rewrite Z.mod_small by lia. lia. Qed.

Lemma wrap64_double_big x : 2 ^ 62 <= x < 2 ^ 63 -> wrap64 (x * 2) = x * 2 - 2 ^ 64.
Proof.
  intros Hx. unfold wrap64.
  rewrite <- (Z.mod_unique (x * 2 + 2 ^ 63) (2 ^ 64) 1 (x * 2 + 2 ^ 63 - 2 ^ 64)) by lia.
  lia.
Qed.

Lemma Rate_Allow_fresh now lim b :
  lim <> 0 -> fst (Rate.Allow now (Rate.NewLimiter lim b)) = (1 <=? b).
Proof.
  intros Hl. unfold Rate.Allow, Rate.advance, Rate.NewLimiter.
  cbn [Rate.limit Rate.burst Rate.last]. rewrite (proj2 (Z.eqb_neq lim 0) Hl).
  destruct (1 <=? b) eqn:E; [| reflexivity].
  apply Z.leb_le in E. rewrite (proj2 (Z.leb_le 0 (b * Rate.nano - Rate.nano))) by
    (unfold Rate.nano; lia). reflexivity.
Qed.

Lemma Allow_keeps_enabled now ip r :
  rl_enabled (snd (Allow now ip r)) = rl_enabled r.
Proof.
  unfold Allow, perIPAllow, getIPLimiter.
  destruct (rl_enabled r) eqn:E; [| exact E]. simpl.
  destruct (globalLimiter r) as [g|].
  - destruct (Rate.Allow now g) as [[|] g']; simpl; [| exact E].
    destruct (perIPLimiters r !! ip); simpl; (destruct (Rate.Allow _ _); exact E).
  - destruct (perIPLimiters r !! ip); simpl; (destruct (Rate.Allow _ _); exact E).
Qed.

Lemma run_allows_enabled calls : forall r,
  rl_enabled (run_allows calls r) = rl_enabled r.
Proof.
  induction calls as [|[now ip] calls IH]; intros r; [reflexivity |].
  simpl. rewrite IH. apply Allow_keeps_enabled.
Qed.

Lemma Rate_Allow_low_burst now l :
  Rate.limit l <> 0 -> Rate.burst l < 1 -> fst (Rate.Allow now l) = false.
Proof.
  intros Hl Hb. unfold Rate.Allow. rewrite (proj2 (Z.eqb_neq _ 0) Hl).
  rewrite (proj2 (Z.leb_gt 1 (Rate.burst l)) Hb). reflexivity.
Qed.

(** With a non-zero per-IP rate and a burst below one, an enabled
    limiter refuses every request. *)
Lemma Allow_refuses_low_burst now ip r :
  rl_enabled r = true -> perIPLimit r <> 0 -> perIPBurst r < 1 -> buckets_configured r ->
  fst (Allow now ip r) = false.
Proof.
  intros He Hl Hb Hc.
  assert (Hper : forall r', perIPLimit r' = perIPLimit r -> perIPBurst r' = perIPBurst r ->
                 perIPLimiters r' = perIPLimiters r -> fst (perIPAllow now ip r') = false).
  { intros r' E1 E2 E3. unfold perIPAllow, getIPLimiter.
    destruct (perIPLimiters r' !! ip) as [b|] eqn:E.
    - rewrite E3 in E. destruct (Hc ip b E) as [Hbl Hbb].
      pose proof (Rate_Allow_low_burst now b) as Hlow.
      destruct (Rate.Allow now b) as [ok b']. cbn [fst] in Hlow |- *.
      apply Hlow; congruence.
    - pose proof (Rate_Allow_low_burst now (Rate.NewLimiter (perIPLimit r') (perIPBurst r')))
        as Hlow.
      destruct (Rate.Allow now _) as [ok b']. cbn [fst] in Hlow |- *.
      apply Hlow; cbn; congruence. }
  unfold Allow. rewrite He. cbn [negb].
  destruct (globalLimiter r) as [g|].
  - destruct (Rate.Allow now g) as [[|] g']; [| reflexivity].
    apply Hper; reflexivity.
  - apply Hper; reflexivity.
Qed.

(** Claim C9 (counterexample).  With rate limiting on, no global bucket
    and [perIPRPS = 2^62], the first request is refused: the Go product
    [perIPRPS * 2] wraps to [-2^63], while a bucket of burst
    [2 * perIPRPS] as the specification describes admits it. *)
Lemma rate_limit_allow_spec_counterexample :
  ~ (forall enabled globalRPS perIPRPS (calls : list (Z * string)) now ip,
       let r := run_allows calls (NewRateLimitMiddleware enabled globalRPS perIPRPS) in
       Allow now ip r = Allow_spec perIPRPS now ip r).
Proof.
  intros H. specialize (H true 0 (2 ^ 62) [] 0 "10.0.0.1"). vm_compute in H.
  discriminate H.
Qed.

(** Claim C9 (amended).  On every rate limiter built by
    [NewRateLimitMiddleware] and used by any earlier calls, [Allow] is
    [Allow_spec_int64]: true without touching a bucket when disabled;
    otherwise the global bucket first, [false] without looking up or
    creating the per-IP bucket when it has no token; else the per-IP
    bucket decides, created with rate [perIPRPS] and the burst
    [perIPRPS * 2] of Go's wrapping [int].  That burst is
    [2 * perIPRPS] when [-2^62 <= perIPRPS < 2^62], so [Allow] is then
    [Allow_spec]; for [2^62 <= perIPRPS < 2^63] it is negative and every
    call of an enabled limiter returns false. *)
Theorem rate_limit_allow_spec :
  forall enabled globalRPS perIPRPS (calls : list (Z * string)) now ip,
    let r := run_allows calls (NewRateLimitMiddleware enabled globalRPS perIPRPS) in
    Allow now ip r = Allow_spec_int64 perIPRPS now ip r /\
    (- 2 ^ 62 <= perIPRPS < 2 ^ 62 -> Allow now ip r = Allow_spec perIPRPS now ip r) /\
    (2 ^ 62 <= perIPRPS < 2 ^ 63 -> fst (Allow now ip r) = negb enabled).
Proof.
  intros enabled globalRPS perIPRPS calls now ip r.
  destruct (run_allows_config calls (NewRateLimitMiddleware enabled globalRPS perIPRPS))
    as [Hl Hb].
  fold r in Hl, Hb. simpl in Hl, Hb.
  assert (Hspec : Allow now ip r = Allow_spec_int64 perIPRPS now ip r).
  { unfold Allow, Allow_spec_int64, Allow_spec_with.
    destruct (rl_enabled r); [| reflexivity]. simpl.
    destruct (globalLimiter r) as [g|].
    - destruct (Rate.Allow now g) as [[|] g']; [| reflexivity].
      rewrite (perIPAllow_spec now ip _ perIPRPS (wrap64 (perIPRPS * 2)));
        simpl; [reflexivity | exact Hl | exact Hb].
    - apply perIPAllow_spec; assumption. }
  split; [exact Hspec | split].
  - intros Hp. rewrite Hspec. unfold Allow_spec_int64, Allow_spec.
    rewrite wrap64_small by lia. rewrite Z.mul_comm. reflexivity.
  - intros Hp. pose proof (run_allows_enabled calls
      (NewRateLimitMiddleware enabled globalRPS perIPRPS)) as He.
    fold r in He. cbn [rl_enabled NewRateLimitMiddleware] in He.
    destruct enabled.
    + apply Allow_refuses_low_burst; [exact He | rewrite Hl; lia | |].
      * rewrite Hb, wrap64_double_big by lia. lia.
      * apply run_allows_buckets_configured; [cbn; lia |].
        intros ip' b Hx. cbn in Hx. rewrite lookup_empty in Hx. discriminate Hx.
    + unfold Allow. rewrite He. reflexivity.
Qed.

(* ------------------------------------------------------------------ *)
(** ** Ban tracker: failure counts and live bans *)

(** Claim C6 (counterexample).  With [maxFailures = 2], three failures
    of one IP at instant 0: the second bans it until 300, the third
    counts again, so the IP has failure count 1 and a live ban. *)
Lemma ban_exclusivity_counterexample :
  ~ (forall mf bd wl (ops : list (Z * BanOp)) now,
       Forall (fun op => fst op <= now) ops ->
       exclusive now (run_ops ops (IPBan.emptyManager mf bd wl))).
Proof.
  intros H.
  assert (Hops : Forall (fun op : Z * BanOp => fst op <= 0)
                   [(0, OpFailure "10.0.0.1"); (0, OpFailure "10.0.0.1");
                    (0, OpFailure "10.0.0.1")]).
  { repeat constructor; simpl; lia. }
  pose proof (H 2 300 [] _ 0 Hops "10.0.0.1" 1 300) as Hx.
  assert (300 < 0) by (apply Hx; vm_compute; reflexivity). lia.
Qed.

(** Claim C6 (amended).  When time only moves forward and
    [RecordFailure ip] is only called at an instant when [ip] is not
    banned, no IP has both a failure count and a ban that is unexpired
    now. *)
Theorem ban_exclusivity_admitted :
  forall t m, reach_admitted t m -> exclusive t m.
Proof.
  intros t m Hr. induction Hr as [t mf bd wl | t t' m _ IH Hle | t ip m _ IH Hnb
                                  | t ip m _ IH | t ip m _ IH];
    intros ip0 c e Hfc Hb.
  - simpl in Hfc. rewrite lookup_empty in Hfc. discriminate.
  - pose proof (IH ip0 c e Hfc Hb). lia.
  - unfold IPBan.RecordFailure in Hfc, Hb.
    destruct (IPBan.is_whitelisted ip m) eqn:Hwl; [exact (IH ip0 c e Hfc Hb) |].
    destruct (IPBan.count_of ip (IPBan.failureCounts m) + 1 >=? IPBan.maxFailures m);
      simpl in Hfc, Hb.
    + destruct (decide (ip0 = ip)) as [->|Hne].
      * rewrite lookup_delete_eq in Hfc. discriminate.
      * rewrite lookup_delete_ne, lookup_insert_ne in Hfc by congruence.
        rewrite lookup_insert_ne in Hb by congruence.
        exact (IH ip0 c e Hfc Hb).
    + destruct (decide (ip0 = ip)) as [->|Hne].
      * unfold IPBan.IsBanned in Hnb. rewrite Hwl, Hb in Hnb.
        destruct (t >? e) eqn:Ht; [lia | discriminate].
      * rewrite lookup_insert_ne in Hfc by congruence.
        exact (IH ip0 c e Hfc Hb).
  - simpl in Hfc, Hb. destruct (decide (ip0 = ip)) as [->|Hne].
    + rewrite lookup_delete_eq in Hfc. discriminate.
    + rewrite lookup_delete_ne in Hfc by congruence. exact (IH ip0 c e Hfc Hb).
  - simpl in Hfc, Hb. destruct (decide (ip0 = ip)) as [->|Hne].
    + rewrite lookup_delete_eq in Hfc. discriminate.
    + rewrite lookup_delete_ne in Hfc by congruence.
      rewrite lookup_delete_ne in Hb by congruence. exact (IH ip0 c e Hfc Hb).
Qed.

Lemma ban_exclusivity_admitted_witness :
  exclusive 0 (IPBan.RecordFailure 0 "10.0.0.1"
                 (IPBan.RecordFailure 0 "10.0.0.1" (IPBan.emptyManager 2 300 []))).
Proof.
  apply ban_exclusivity_admitted.
  apply ra_failure; [apply ra_failure; [apply ra_init | reflexivity] | reflexivity].
Defined.

(* ------------------------------------------------------------------ *)
(** ** Ban persistence *)

Lemma load_record_ban now r m ip :
  IPBan.bannedIPs (IPBan.load_record now m r) !! ip =
    if String.eqb (IPBan.IP r) ip then load_ban now r (IPBan.bannedIPs m !! ip)
    else IPBan.bannedIPs m !! ip.
Proof.
  unfold IPBan.load_record, load_ban.
  destruct (String.eqb_spec (IPBan.IP r) ip) as [<-|Hne].
  - destruct (IPBan.ExpiresAt r) as [e|]; [destruct (now <? e)|];
      [simpl; rewrite lookup_insert_eq; reflexivity | |];
      destruct (0 <? IPBan.FailCount r); reflexivity.
  - destruct (IPBan.ExpiresAt r) as [e|]; [destruct (now <? e)|];
      [simpl; rewrite lookup_insert_ne by congruence; reflexivity | |];
      destruct (0 <? IPBan.FailCount r); reflexivity.
Qed.

Lemma load_record_count now r m ip :
  IPBan.failureCounts (IPBan.load_record now m r) !! ip =
    if String.eqb (IPBan.IP r) ip then load_count now r (IPBan.failureCounts m !! ip)
    else IPBan.failureCounts m !! ip.
Proof.
  unfold IPBan.load_record, load_count.
  destruct (String.eqb_spec (IPBan.IP r) ip) as [<-|Hne].
  - destruct (IPBan.ExpiresAt r) as [e|]; [destruct (now <? e)|];
      [reflexivity | |]; destruct (0 <? IPBan.FailCount r);
      simpl; rewrite ?lookup_insert_eq; reflexivity.
  - destruct (IPBan.ExpiresAt r) as [e|]; [destruct (now <? e)|];
      [reflexivity | |]; destruct (0 <? IPBan.FailCount r);
      simpl; rewrite ?lookup_insert_ne by congruence; reflexivity.
Qed.

(** Loading is pointwise: an IP's entries depend only on its records. *)
Lemma loadFromFile_ban now rs : forall m ip,
  IPBan.bannedIPs (IPBan.loadFromFile now rs m) !! ip =
    fold_left (fun o r => load_ban now r o) (records_of ip rs) (IPBan.bannedIPs m !! ip).
Proof.
  induction rs as [|r rs IH]; intros m ip; [reflexivity |].
  unfold IPBan.loadFromFile in *. simpl. rewrite IH, load_record_ban.
  unfold records_of. simpl. destruct (String.eqb (IPBan.IP r) ip); reflexivity.
Qed.

Lemma loadFromFile_count now rs : forall m ip,
  IPBan.failureCounts (IPBan.loadFromFile now rs m) !! ip =
    fold_left (fun o r => load_count now r o) (records_of ip rs) (IPBan.failureCounts m !! ip).
Proof.
  induction rs as [|r rs IH]; intros m ip; [reflexivity |].
  unfold IPBan.loadFromFile in *. simpl. rewrite IH, load_record_count.
  unfold records_of. simpl. destruct (String.eqb (IPBan.IP r) ip); reflexivity.
Qed.

(** A list with distinct keys has at most one entry for [ip]. *)
Lemma filter_key_unique {V} (l : list (string * V)) ip :
  NoDup (l.*1) ->
  (List.filter (fun kv => String.eqb (fst kv) ip) l = [] /\ forall v, (ip, v) ∉ l) \/
  (exists v, List.filter (fun kv => String.eqb (fst kv) ip) l = [(ip, v)] /\ (ip, v) ∈ l).
Proof.
  induction l as [|[k v] l IH]; intros Hnd.
  - left. split; [reflexivity |]. intros v Hin. inversion Hin.
  - simpl in Hnd. apply NoDup_cons in Hnd as [Hk Hnd].
    simpl. destruct (String.eqb_spec k ip) as [->|Hne].
    + right. exists v. split; [| left].
      destruct (IH Hnd) as [[-> _] | (v' & _ & Hin)]; [reflexivity |].
      exfalso. apply Hk. apply list_elem_of_fmap. exists (ip, v'). split; [reflexivity | exact Hin].
    + destruct (IH Hnd) as [[Hf Hn] | (v' & Hf & Hin)].
      * left. split; [exact Hf |]. intros v' Hin. apply elem_of_cons in Hin as [Heq | Hin].
        -- injection Heq as ->. congruence.
        -- exact (Hn v' Hin).
      * right. exists v'. split; [exact Hf | apply elem_of_cons; right; exact Hin].
Qed.

Lemma map_to_list_key {V} (m : gmap string V) ip :
  List.filter (fun kv => String.eqb (fst kv) ip) (map_to_list m) =
    match m !! ip with Some v => [(ip, v)] | None => [] end.
Proof.
  destruct (filter_key_unique (map_to_list m) ip (NoDup_fst_map_to_list m))
    as [[Hf Hn] | (v & Hf & Hin)].
  - rewrite Hf. destruct (m !! ip) as [v|] eqn:E; [| reflexivity].
    exfalso. apply (Hn v). apply elem_of_map_to_list. exact E.
  - rewrite Hf. apply elem_of_map_to_list in Hin. rewrite Hin. reflexivity.
Qed.

Lemma records_of_ban_records (m : IPBan.IPBanManager) ts ip (l : list (string * Z)) :
  records_of ip (map (fun '(ip', expiry) => IPBan.ban_record m ip' expiry)
                   (List.filter (fun '(_, expiry) => ts <? expiry) l)) =
  map (fun '(ip', expiry) => IPBan.ban_record m ip' expiry)
    (List.filter (fun '(_, expiry) => ts <? expiry)
       (List.filter (fun kv => String.eqb (fst kv) ip) l)).
Proof.
  induction l as [|[k e] l IH]; [reflexivity |]. simpl.
  destruct (ts <? e) eqn:Ht; destruct (String.eqb k ip) eqn:Hk; simpl;
    rewrite ?Ht; unfold records_of in *; simpl; rewrite ?Hk, ?IH; reflexivity.
Qed.

Lemma existsb_records_of ip (acc : list IPBan.BanRecord) :
  existsb (fun r => String.eqb (IPBan.IP r) ip) acc =
  existsb (fun r => String.eqb (IPBan.IP r) ip) (records_of ip acc).
Proof.
  induction acc as [|r acc IH]; [reflexivity |]. unfold records_of in *. simpl.
  destruct (String.eqb (IPBan.IP r) ip) eqn:E; simpl; rewrite ?E; [reflexivity | exact IH].
Qed.

Lemma records_of_add ip acc k c :
  records_of ip (IPBan.add_failure_record acc (k, c)) =
    if String.eqb k ip then IPBan.add_failure_record (records_of ip acc) (k, c)
    else records_of ip acc.
Proof.
  unfold IPBan.add_failure_record.
  destruct (String.eqb_spec k ip) as [->|Hne].
  - rewrite <- existsb_records_of.
    destruct (negb _ && (0 <? c)); [| reflexivity].
    unfold records_of. rewrite List.filter_app. simpl. rewrite String.eqb_refl. reflexivity.
  - destruct (negb _ && (0 <? c)); [| reflexivity].
    unfold records_of. rewrite List.filter_app. simpl.
    destruct (String.eqb_spec k ip); [congruence |]. apply app_nil_r.
Qed.

Lemma records_of_fold ip l : forall acc,
  records_of ip (fold_left IPBan.add_failure_record l acc) =
  fold_left IPBan.add_failure_record (List.filter (fun kv => String.eqb (fst kv) ip) l)
    (records_of ip acc).
Proof.
  induction l as [|[k c] l IH]; intros acc; [reflexivity |].
  cbn [fold_left]. rewrite IH, records_of_add. cbn [List.filter fst].
  destruct (String.eqb k ip); reflexivity.
Qed.

(** The records [saveToFile] writes for one IP. *)
Lemma saveToFile_records_of ts m ip :
  records_of ip (IPBan.saveToFile ts m) =
    let failure_part :=
      match IPBan.failureCounts m !! ip with
      | Some c => if 0 <? c then [IPBan.mkBanRecord ip None None c] else []
      | None => []
      end in
    match IPBan.bannedIPs m !! ip with
    | Some e => if ts <? e then [IPBan.ban_record m ip e] else failure_part
    | None => failure_part
    end.
Proof.
  unfold IPBan.saveToFile. rewrite records_of_fold, records_of_ban_records.
  rewrite !map_to_list_key.
  destruct (IPBan.bannedIPs m !! ip) as [e|]; [destruct (ts <? e) eqn:Ht|]; simpl;
    rewrite ?Ht; destruct (IPBan.failureCounts m !! ip) as [c|]; simpl;
    unfold IPBan.add_failure_record; simpl; rewrite ?String.eqb_refl; simpl;
    try reflexivity; destruct (0 <? c); reflexivity.
Qed.

Lemma GetBannedIPs_spec now m ip :
  In ip (IPBan.GetBannedIPs now m) <->
  exists e, IPBan.bannedIPs m !! ip = Some e /\ now < e.
Proof.
  unfold IPBan.GetBannedIPs. rewrite in_map_iff. split.
  - intros ([k e] & Hk & Hin). simpl in Hk. subst k.
    apply filter_In in Hin as [Hin Hlt].
    apply list_elem_of_In, elem_of_map_to_list in Hin.
    exists e. split; [exact Hin | lia].
  - intros (e & He & Hlt). exists (ip, e). split; [reflexivity |].
    apply filter_In. split; [| lia].
    apply list_elem_of_In, elem_of_map_to_list. exact He.
Qed.

(** Claim C7 (counterexample).  An IP banned at instant 0 until 300
    (three failures, [maxFailures = 3]) is saved at 0; loaded at 400 its
    expired ban comes back as failure count 3, which the original
    manager did not have. *)
Lemma ban_persistence_counterexample :
  ~ (forall (m : IPBan.IPBanManager) ts tl, ts <= tl ->
       (forall ip, In ip (IPBan.GetBannedIPs tl (round_trip ts tl m)) <->
                   In ip (IPBan.GetBannedIPs tl m)) /\
       IPBan.failureCounts (round_trip ts tl m) =
         filter (fun kv => 0 < kv.2) (IPBan.failureCounts m)).
Proof.
  intros H.
  destruct (H (fails "10.0.0.1" [0; 0; 0] (IPBan.emptyManager 3 300 [])) 0 400
              ltac:(lia)) as [_ Heq].
  apply (f_equal (lookup "10.0.0.1")) in Heq.
  vm_compute in Heq. discriminate.
Qed.

(** Claim C7 (amended).  Saving at [ts] and loading at [tl >= ts] into a
    fresh manager with the same configuration gives the same banned IPs
    at [tl]; an IP without a ban live at [ts] keeps its positive failure
    count; an IP whose ban was live at [ts] has no failure count if the
    ban is still live at [tl], and otherwise gets the count that
    triggered its ban (when positive). *)
Theorem ban_persistence_round_trip :
  forall (m : IPBan.IPBanManager) ts tl, ts <= tl ->
    (forall ip, In ip (IPBan.GetBannedIPs tl (round_trip ts tl m)) <->
                In ip (IPBan.GetBannedIPs tl m)) /\
    (forall ip, IPBan.failureCounts (round_trip ts tl m) !! ip =
                restored_failure_count ts tl m ip).
Proof.
  intros m ts tl Hle. unfold round_trip, IPBan.NewIPBanManager. split.
  - intros ip. rewrite !GetBannedIPs_spec, loadFromFile_ban, saveToFile_records_of.
    simpl. rewrite lookup_empty.
    destruct (IPBan.bannedIPs m !! ip) as [e|] eqn:Hb.
    + destruct (ts <? e) eqn:Ht.
      * unfold records_of. simpl. rewrite ?String.eqb_refl. simpl.
        unfold load_ban. simpl. destruct (tl <? e) eqn:Hl.
        -- split; intros (e' & He' & Hlt'); exists e'; split; try lia; congruence.
        -- split; intros (e' & He' & Hlt'); [discriminate | injection He' as <-; lia].
      * destruct (IPBan.failureCounts m !! ip) as [c|];
          [destruct (0 <? c)|]; unfold records_of; simpl; rewrite ?String.eqb_refl; simpl;
          unfold load_ban; simpl;
          (split; intros (e' & He' & Hlt'); [discriminate | injection He' as <-; lia]).
    + destruct (IPBan.failureCounts m !! ip) as [c|];
        [destruct (0 <? c)|]; unfold records_of; simpl; rewrite ?String.eqb_refl; simpl;
        unfold load_ban; simpl;
        (split; intros (e' & He' & Hlt'); discriminate).
  - intros ip. rewrite loadFromFile_count, saveToFile_records_of.
    simpl. rewrite lookup_empty. unfold restored_failure_count, positive.
    destruct (IPBan.bannedIPs m !! ip) as [e|] eqn:Hb; [destruct (ts <? e) eqn:Ht|].
    + unfold records_of. simpl. rewrite ?String.eqb_refl. simpl.
      unfold load_count, IPBan.ban_record. simpl.
      destruct (tl <? e); [reflexivity |].
      destruct (IPBan.bannedFailCount m !! ip) as [c|]; reflexivity.
    + destruct (IPBan.failureCounts m !! ip) as [c|]; [destruct (0 <? c) eqn:Hc|];
        unfold records_of; simpl; rewrite ?String.eqb_refl; simpl;
        unfold load_count; simpl; rewrite ?Hc; reflexivity.
    + destruct (IPBan.failureCounts m !! ip) as [c|]; [destruct (0 <? c) eqn:Hc|];
        unfold records_of; simpl; rewrite ?String.eqb_refl; simpl;
        unfold load_count; simpl; rewrite ?Hc; reflexivity.
Qed.

Lemma ban_persistence_round_trip_witness :
  let m := fails "10.0.0.1" [0; 0; 0] (IPBan.emptyManager 3 300 []) in
  (forall ip, In ip (IPBan.GetBannedIPs 400 (round_trip 0 400 m)) <->
              In ip (IPBan.GetBannedIPs 400 m)) /\
  (forall ip, IPBan.failureCounts (round_trip 0 400 m) !! ip =
              restored_failure_count 0 400 m ip).
Proof. apply ban_persistence_round_trip. lia. Defined.

(* ------------------------------------------------------------------ *)
(** ** Outbound dials of the SOCKS5 frontend *)

Section SOCKS5Dials.
Import SOCKS5.

Lemma dials_on_app n evs evs' :
  dials_on n evs -> dials_on n evs' -> dials_on n (evs ++ evs').
Proof. unfold dials_on, dials. rewrite flat_map_app. apply Forall_app_2. Qed.

Lemma dials_on_write n evs bs : dials_on n evs -> dials_on n (evs ++ [EvWrite bs]).
Proof. intros H. apply dials_on_app; [exact H | constructor]. Qed.

Lemma keeps_ret {A} n (x : A) : keeps_dials_on n (ret x).
Proof. intros c H. exact H. Qed.

Lemma keeps_fail {A} n : keeps_dials_on n (@fail A).
Proof. intros c H. exact H. Qed.

Lemma keeps_bind {A B} n (m : M A) (k : A -> M B) :
  keeps_dials_on n m -> (forall x, keeps_dials_on n (k x)) -> keeps_dials_on n (bind m k).
Proof.
  intros Hm Hk c H. unfold bind.
  specialize (Hm c H). destruct (m c) as [c' [x|]]; [exact (Hk x c' Hm) | exact Hm].
Qed.

Lemma keeps_readFull n k : keeps_dials_on n (readFull k).
Proof. intros c H. unfold readFull. destruct (k <=? length (pending c))%nat; exact H. Qed.

Lemma keeps_write n bs : keeps_dials_on n (write bs).
Proof. intros c H. apply dials_on_write. exact H. Qed.

Lemma keeps_modify n f : keeps_dials_on n (modify f).
Proof. intros c H. exact H. Qed.

Lemma keeps_get n : keeps_dials_on n get_shared.
Proof. intros c H. exact H. Qed.

Lemma keeps_dial n a : keeps_dials_on n (emit (EvDial n a)).
Proof. intros c H. apply dials_on_app; [exact H | repeat constructor]. Qed.

Lemma keeps_relay n : keeps_dials_on n (emit EvRelay).
Proof. intros c H. apply dials_on_app; [exact H | constructor]. Qed.

Lemma keeps_sendReply n rep : keeps_dials_on n (sendReply rep).
Proof. apply keeps_write. Qed.

Lemma keeps_readOrReply n k : keeps_dials_on n (readOrReply k).
Proof.
  intros c H. unfold readOrReply.
  pose proof (keeps_readFull n k c H) as H1.
  destruct (readFull k c) as [c' [bs|]]; [exact H1 |].
  apply (keeps_bind n _ _ (keeps_sendReply n _) (fun _ => keeps_fail n)). exact H1.
Qed.

Ltac keeps_step :=
  match goal with
  | |- keeps_dials_on _ (bind _ _) => apply keeps_bind; [| intro]
  | |- keeps_dials_on _ (ret _) => apply keeps_ret
  | |- keeps_dials_on _ fail => apply keeps_fail
  | |- keeps_dials_on _ (readFull _) => apply keeps_readFull
  | |- keeps_dials_on _ (readOrReply _) => apply keeps_readOrReply
  | |- keeps_dials_on _ (write _) => apply keeps_write
  | |- keeps_dials_on _ (sendReply _) => apply keeps_sendReply
  | |- keeps_dials_on _ (modify _) => apply keeps_modify
  | |- keeps_dials_on _ get_shared => apply keeps_get
  | |- keeps_dials_on _ (emit (EvDial _ _)) => apply keeps_dial
  | |- keeps_dials_on _ (emit EvRelay) => apply keeps_relay
  | |- keeps_dials_on _ (if ?b then _ else _) => destruct b
  | |- keeps_dials_on _ (match ?x with _ => _ end) => destruct x
  end.

Lemma keeps_authenticatePassword now ip : keeps_dials_on "tcp" (authenticatePassword now ip).
Proof. unfold authenticatePassword. repeat keeps_step. Qed.

Lemma keeps_handshake now ip : keeps_dials_on "tcp" (handshake now ip).
Proof.
  unfold handshake. repeat (keeps_step || apply keeps_authenticatePassword).
Qed.

Lemma keeps_handleRequest dial : keeps_dials_on "tcp" (handleRequest dial).
Proof. unfold handleRequest. repeat keeps_step. Qed.

End SOCKS5Dials.

(** Claim C4 (code_bug).  The HTTP frontend dials on the network family
    its [HTTPProxy] is configured with, but the SOCKS5 frontend has no
    network setting and dials every target on ["tcp"], whatever the
    configured family. *)
Theorem socks5_dials_ignore_network_family :
  (forall now dial (p : SOCKS5.SOCKS5Proxy) s clientIP input,
     dials_on "tcp" (snd (SOCKS5.handleConnection now dial p s clientIP input))) /\
  (forall now dial (h : HTTP.HTTPProxy) s clientIP req,
     dials_on (HTTP.network h) (snd (HTTP.handleConnection now dial h s clientIP req))) /\
  dials (snd (SOCKS5.handleConnection 0 dial_all (SOCKS5.mkSOCKS5Proxy 1080) open_shared
                "10.0.0.2" socks5_ipv6_connect)) = [("tcp", "::1:80")] /\
  dials (snd (HTTP.handleConnection 0 dial_all (HTTP.mkHTTPProxy 8080 "tcp4") open_shared
                "10.0.0.2" (Some http_connect_request))) = [("tcp4", "example.com:443")].
Proof.
  split; [| split; [| split; vm_compute; reflexivity]].
  - intros now dial p s clientIP input.
    unfold SOCKS5.handleConnection.
    destruct (CB_IsOpen now (circuitBreaker s)); [constructor |].
    destruct (IsBlocked now clientIP (ipBan s)); [constructor |].
    destruct (Allow now clientIP (rateLimit s)) as [[|] rl]; [| constructor].
    unfold SOCKS5.serve.
    pose proof (keeps_bind "tcp" _ _ (keeps_handshake now clientIP)
                  (fun _ => keeps_handleRequest dial)
                  (SOCKS5.mkConn (set_rateLimit rl s) input []) ltac:(constructor)) as H.
    destruct (SOCKS5.bind _ _ _) as [c r]. exact H.
  - intros now dial h s clientIP req.
    unfold HTTP.handleConnection.
    destruct (CB_IsOpen now (circuitBreaker s)); [constructor |].
    destruct (IsBlocked now clientIP (ipBan s)); [constructor |].
    destruct (Allow now clientIP (rateLimit s)) as [[|] rl]; [| constructor].
    unfold HTTP.serve. destruct req as [req|]; [| constructor].
    assert (Hd : dials_on (HTTP.network h)
                   (if String.eqb (HTTP.Method req) "CONNECT"
                    then HTTP.handleConnect dial h req else HTTP.handleHTTP dial h req)).
    { unfold HTTP.handleConnect, HTTP.handleHTTP.
      destruct (String.eqb _ _); [destruct (dial _ (HTTP.Host req)) | destruct (dial _ _)];
        repeat constructor. }
    destruct (auth_enabled _); [| exact Hd].
    destruct (HTTP.parseProxyAuth req) as [[u pw] ok].
    destruct (negb ok || _); [repeat constructor | exact Hd].
Qed.

(** Claim C5 (code_bug).  For the SOCKS5 CONNECT to [::1] port 80 the
    frontend renders the 16 address bytes as ["::1"] and dials
    ["::1:80"], the address joined to the port by a bare colon, while
    the bracketing join [JoinHostPort] gives ["[::1]:80"]. *)
Theorem socks5_ipv6_target_not_bracketed :
  NetIP.String16 ipv6_loopback = "::1" /\
  dials (snd (SOCKS5.handleConnection 0 dial_all (SOCKS5.mkSOCKS5Proxy 1080) open_shared
                "10.0.0.2" socks5_ipv6_connect)) = [("tcp", "::1:80")] /\
  JoinHostPort (NetIP.String16 ipv6_loopback) "80" = "[::1]:80".
Proof. vm_compute. repeat split. Qed.

(* ------------------------------------------------------------------ *)
(** ** Missing or malformed HTTP credentials *)

Lemma split_colon_no_colon d : Fmt.contains_char ":" d = false -> HTTP.split_colon d = None.
Proof.
  induction d as [|c d IH]; cbn [Fmt.contains_char HTTP.split_colon]; [reflexivity |].
  rewrite Ascii.eqb_sym. destruct (Ascii.eqb c ":"); [intros H; discriminate H |].
  intros H. rewrite (IH H). reflexivity.
Qed.

Lemma parseProxyAuth_malformed req :
  credentials_malformed (HTTP.Header_Get (HTTP.Header req) "Proxy-Authorization") ->
  snd (HTTP.parseProxyAuth req) = false.
Proof.
  unfold HTTP.parseProxyAuth, credentials_malformed, basic_payload.
  set (a := HTTP.Header_Get _ _).
  intros [Ha | [Hp | [Hd | (d & Hd & Hc)]]].
  - rewrite Ha. reflexivity.
  - destruct (String.eqb a EmptyString); [reflexivity |]. rewrite Hp. reflexivity.
  - destruct (String.eqb a EmptyString); [reflexivity |].
    destruct (String.prefix HTTP.basicPrefix a); [| reflexivity].
    simpl negb. cbv iota. rewrite Hd. reflexivity.
  - destruct (String.eqb a EmptyString); [reflexivity |].
    destruct (String.prefix HTTP.basicPrefix a); [| reflexivity].
    simpl negb. cbv iota. rewrite Hd, (split_colon_no_colon d Hc). reflexivity.
Qed.

(** Once authentication rejects a request, [serve] records the failure
    and answers 407, whatever the reason. *)
Lemma serve_auth_rejected now dial h s ip req :
  auth_enabled (auth s) = true ->
  (let '(username, password, ok) := HTTP.parseProxyAuth req in
   negb ok || negb (Authenticate (auth s) username password)) = true ->
  HTTP.serve now dial h s ip (Some req) =
    (set_feedback (RecordAuthFailure now ip (ipBan s)) (CB_RecordAuthFailure now (circuitBreaker s)) s,
     [EvWrite HTTP.proxyAuthRequired]).
Proof.
  intros Ha Hr. unfold HTTP.serve. rewrite Ha.
  destruct (HTTP.parseProxyAuth req) as [[u p] ok]. rewrite Hr. reflexivity.
Qed.

Lemma serve_repeat_ban dial h ip req ts : forall s,
  auth_enabled (auth s) = true ->
  ban_enabled (ipBan s) = true ->
  snd (HTTP.parseProxyAuth req) = false ->
  ipBan (serve_repeat dial h ip req ts s) = mkIPBanMW true (fails ip ts (manager (ipBan s))).
Proof.
  induction ts as [|t ts IH]; intros s Ha Hb Hok.
  - simpl. destruct (ipBan s) as [e m]. simpl in Hb. subst e. reflexivity.
  - change (serve_repeat dial h ip req (t :: ts) s) with
      (serve_repeat dial h ip req ts (fst (HTTP.serve t dial h s ip (Some req)))).
    rewrite serve_auth_rejected.
    2: exact Ha.
    2: { destruct (HTTP.parseProxyAuth req) as [[u p] ok]. simpl in Hok. subst ok. reflexivity. }
    rewrite IH; simpl.
    + unfold RecordAuthFailure. rewrite Hb. reflexivity.
    + exact Ha.
    + unfold RecordAuthFailure. rewrite Hb. reflexivity.
    + exact Hok.
Qed.

(** Claim C10 (counterexample).  With authentication and IP banning on,
    five header-less requests from a whitelisted client each get the 407
    answer, and the client is never banned; with IP banning off, the
    ban tracker records nothing. *)
Theorem credentialless_client_not_always_banned :
  let s := fold_left (fun s t => fst (HTTP.handleConnection t dial_all
                       (HTTP.mkHTTPProxy 8080 "tcp") s "192.168.1.1" (Some bare_request)))
             [0; 1; 2; 3; 4] (auth_ban_shared ["192.168.1.1"]) in
  snd (HTTP.handleConnection 5 dial_all (HTTP.mkHTTPProxy 8080 "tcp") s "192.168.1.1"
         (Some bare_request)) = [EvWrite HTTP.proxyAuthRequired] /\
  IsBlocked 5 "192.168.1.1" (ipBan s) = false /\
  ipBan (fst (HTTP.serve 0 dial_all (HTTP.mkHTTPProxy 8080 "tcp") open_shared "10.0.0.1"
                (Some bare_request))) = ipBan open_shared.
Proof. vm_compute. repeat split. Qed.

(** Claim C10 (amended).  With authentication on, a request whose
    [Proxy-Authorization] value is absent, not Basic, not base64, or
    decodes to a text without a colon, once admitted, is handled exactly
    like wrong credentials: each enabled tracker records one failure
    (the ban tracker through [RecordFailure], a no-op for whitelisted
    IPs) and the client gets the 407 answer.  With IP banning on and a
    non-whitelisted client with no ban and no failure count,
    [maxFailures] such requests ban it until [t + banDuration]. *)
Theorem malformed_credentials_are_auth_failures :
  forall now dial h s ip (req : HTTP.Request),
    auth_enabled (auth s) = true ->
    credentials_malformed (HTTP.Header_Get (HTTP.Header req) "Proxy-Authorization") ->
    HTTP.serve now dial h s ip (Some req) =
      (set_feedback (RecordAuthFailure now ip (ipBan s)) (CB_RecordAuthFailure now (circuitBreaker s)) s,
       [EvWrite HTTP.proxyAuthRequired]) /\
    (forall req', credentials_wrong (auth s) req' = true ->
       HTTP.serve now dial h s ip (Some req') = HTTP.serve now dial h s ip (Some req)) /\
    (forall (ts : list Z) t q,
       ban_enabled (ipBan s) = true ->
       ip ∉ IPBan.whitelist (manager (ipBan s)) ->
       1 <= IPBan.maxFailures (manager (ipBan s)) ->
       IPBan.bannedIPs (manager (ipBan s)) !! ip = None ->
       IPBan.failureCounts (manager (ipBan s)) !! ip = None ->
       Z.of_nat (length ts) = IPBan.maxFailures (manager (ipBan s)) - 1 ->
       q <= t + IPBan.banDuration (manager (ipBan s)) ->
       IsBlocked q ip (ipBan (serve_repeat dial h ip req (ts ++ [t]) s)) = true).
Proof.
  intros now dial h s ip req Ha Hm.
  pose proof (parseProxyAuth_malformed req Hm) as Hok.
  assert (Hrej : HTTP.serve now dial h s ip (Some req) =
      (set_feedback (RecordAuthFailure now ip (ipBan s)) (CB_RecordAuthFailure now (circuitBreaker s)) s,
       [EvWrite HTTP.proxyAuthRequired])).
  { apply serve_auth_rejected; [exact Ha |].
    destruct (HTTP.parseProxyAuth req) as [[u p] ok]. simpl in Hok. subst ok. reflexivity. }
  split; [exact Hrej | split].
  - intros req' Hw. rewrite Hrej. apply serve_auth_rejected; [exact Ha |].
    unfold credentials_wrong in Hw.
    destruct (HTTP.parseProxyAuth req') as [[u p] ok].
    destruct ok; simpl in *; [exact Hw | discriminate].
  - intros ts t q Hb Hwl Hmf Hban Hfc Hlen Hq.
    rewrite (serve_repeat_ban dial h ip req (ts ++ [t]) s Ha Hb Hok).
    unfold IsBlocked. simpl negb. cbv iota.
    apply fails_threshold_ban; assumption.
Qed.

Lemma malformed_credentials_are_auth_failures_witness :
  let s := auth_ban_shared [] in
  HTTP.serve 0 dial_all (HTTP.mkHTTPProxy 8080 "tcp") s "10.0.0.1" (Some bare_request) =
    (set_feedback (RecordAuthFailure 0 "10.0.0.1" (ipBan s))
                  (CB_RecordAuthFailure 0 (circuitBreaker s)) s,
     [EvWrite HTTP.proxyAuthRequired]) /\
  (forall req', credentials_wrong (auth s) req' = true ->
     HTTP.serve 0 dial_all (HTTP.mkHTTPProxy 8080 "tcp") s "10.0.0.1" (Some req') =
     HTTP.serve 0 dial_all (HTTP.mkHTTPProxy 8080 "tcp") s "10.0.0.1" (Some bare_request)) /\
  (forall (ts : list Z) t q,
     ban_enabled (ipBan s) = true ->
     "10.0.0.1" ∉ IPBan.whitelist (manager (ipBan s)) ->
     1 <= IPBan.maxFailures (manager (ipBan s)) ->
     IPBan.bannedIPs (manager (ipBan s)) !! "10.0.0.1" = None ->
     IPBan.failureCounts (manager (ipBan s)) !! "10.0.0.1" = None ->
     Z.of_nat (length ts) = IPBan.maxFailures (manager (ipBan s)) - 1 ->
     q <= t + IPBan.banDuration (manager (ipBan s)) ->
     IsBlocked q "10.0.0.1"
       (ipBan (serve_repeat dial_all (HTTP.mkHTTPProxy 8080 "tcp") "10.0.0.1" bare_request
                 (ts ++ [t]) s)) = true).
Proof.
  apply malformed_credentials_are_auth_failures.
  - reflexivity.
  - left. reflexivity.
Defined.

(* ------------------------------------------------------------------ *)
(** ** The breaker through [Call], its window, and its opening *)

Section BreakerProperties.
Import Breaker.

Lemma neg64_ne d : d <> - 2 ^ 63 -> neg64 d = - d.
Proof. intros Hd. unfold neg64. rewrite (proj2 (Z.eqb_neq d _) Hd). reflexivity. Qed.

Lemma cleanup_requests now cb :
  requests (cleanup now cb) =
    List.filter (fun r => now + neg64 (windowSize cb) <? timestamp r) (requests cb).
Proof. reflexivity. Qed.

Lemma filter_recent_repeat t w n :
  0 < w ->
  List.filter (fun r => t + neg64 w <? timestamp r) (repeat (mkRecord t false) n)
    = repeat (mkRecord t false) n.
Proof.
  intros Hw. rewrite neg64_ne by lia.
  induction n as [|n IH]; [reflexivity |]. simpl.
  replace (t + - w <? t) with true by lia. rewrite IH. reflexivity.
Qed.

Lemma repeat_snoc {A} (x : A) n : repeat x n ++ [x] = repeat x (S n).
Proof. induction n as [|n IH]; [reflexivity | simpl; rewrite IH; reflexivity]. Qed.

Lemma failures_repeat t n : failures (repeat (mkRecord t false) n) = Z.of_nat n.
Proof.
  unfold failures. f_equal. induction n as [|n IH]; [reflexivity |]. simpl. rewrite IH. reflexivity.
Qed.

(** Below [minRequests], failures at one instant accumulate in the
    window of a fresh breaker and leave it closed. *)
Lemma failures_at_closed now t thr ws mr bd k :
  0 < ws -> Z.of_nat k < mr ->
  failures_at t k (NewCircuitBreaker now thr ws mr bd) =
    mkCB StateClosed thr ws mr bd (repeat (mkRecord t false) k) now 0 3.
Proof.
  intros Hw. induction k as [|k IH]; intros Hk; [reflexivity |].
  change (failures_at t (S k) (NewCircuitBreaker now thr ws mr bd)) with
    (RecordFailure t (failures_at t k (NewCircuitBreaker now thr ws mr bd))).
  rewrite IH by lia.
  unfold RecordFailure, cleanup, set_requests. cbn [state requests windowSize].
  rewrite repeat_snoc, filter_recent_repeat by exact Hw.
  unfold shouldOpen. cbn [requests state minRequests].
  rewrite List.repeat_length. rewrite (proj2 (Z.leb_gt mr (Z.of_nat (S k)))) by lia.
  reflexivity.
Qed.

End BreakerProperties.

(** The committed recovery of [Call]: on an open breaker with no
    consecutive successes and [halfOpenMaxRequests = 3] (the value
    [NewCircuitBreaker] sets), once [breakDuration] has elapsed, three
    successful [Call]s run their function and close the breaker, resetting
    the counter and stamping the third call's instant. *)
Theorem breaker_call_recovery :
  forall (cb : Breaker.CircuitBreaker) t1 t2 t3,
    Breaker.state cb = Breaker.StateOpen ->
    Breaker.consecutiveSuccesses cb = 0 ->
    Breaker.halfOpenMaxRequests cb = 3 ->
    Breaker.lastStateChange cb + Breaker.breakDuration cb <= t1 ->
    let c1 := Breaker.Call t1 true cb in
    let c2 := Breaker.Call t2 true (snd c1) in
    let c3 := Breaker.Call t3 true (snd c2) in
    fst c1 = Breaker.CallOk /\ fst c2 = Breaker.CallOk /\ fst c3 = Breaker.CallOk /\
    Breaker.state (snd c1) = Breaker.StateHalfOpen /\
    Breaker.state (snd c2) = Breaker.StateHalfOpen /\
    Breaker.state (snd c3) = Breaker.StateClosed /\
    Breaker.lastStateChange (snd c3) = t3 /\
    Breaker.consecutiveSuccesses (snd c3) = 0.
Proof.
  intros [st thr ws mr bd rs lsc cs hom] t1 t2 t3; simpl.
  intros -> -> -> Ht1.
  unfold Breaker.Call, Breaker.GetState. cbn.
  replace (t1 - lsc >=? bd) with true by lia. cbn.
  repeat split.
Qed.

Lemma breaker_call_recovery_witness :
  let cb := Breaker.mkCB Breaker.StateOpen 50 1000 5 500 [] 0 0 3 in
  let c1 := Breaker.Call 600 true cb in
  let c2 := Breaker.Call 700 true (snd c1) in
  let c3 := Breaker.Call 800 true (snd c2) in
  fst c1 = Breaker.CallOk /\ fst c2 = Breaker.CallOk /\ fst c3 = Breaker.CallOk /\
  Breaker.state (snd c1) = Breaker.StateHalfOpen /\
  Breaker.state (snd c2) = Breaker.StateHalfOpen /\
  Breaker.state (snd c3) = Breaker.StateClosed /\
  Breaker.lastStateChange (snd c3) = 800 /\
  Breaker.consecutiveSuccesses (snd c3) = 0.
Proof. apply breaker_call_recovery; simpl; [reflexivity | reflexivity | reflexivity | lia]. Defined.

(** A failed probe: a [Call] whose function fails, made on an open
    breaker once [breakDuration] has elapsed, reopens the breaker with
    the call's instant as its stamp; every [Call] during the next
    [breakDuration] is then refused without running its function and
    without changing the breaker. *)
Theorem breaker_call_failed_probe :
  forall (cb : Breaker.CircuitBreaker) t t' (fn_ok : bool),
    Breaker.state cb = Breaker.StateOpen ->
    Breaker.lastStateChange cb + Breaker.breakDuration cb <= t ->
    t <= t' < t + Breaker.breakDuration cb ->
    let c := Breaker.Call t false cb in
    fst c = Breaker.CallFnError /\
    Breaker.state (snd c) = Breaker.StateOpen /\
    Breaker.lastStateChange (snd c) = t /\
    Breaker.Call t' fn_ok (snd c) = (Breaker.ErrCircuitBreakerOpen, snd c).
Proof.
  intros [st thr ws mr bd rs lsc cs hom] t t' fn_ok; simpl.
  intros -> Ht Ht'.
  unfold Breaker.Call, Breaker.GetState. cbn.
  replace (t - lsc >=? bd) with true by lia.
  rewrite !(bool_decide_true (Breaker.StateOpen = Breaker.StateOpen)) by reflexivity.
  rewrite !(bool_decide_true (Breaker.StateHalfOpen = Breaker.StateHalfOpen)) by reflexivity.
  cbn.
  assert (Hf : (t' - t >=? bd) = false).
  { rewrite Z.geb_leb. apply Z.leb_gt. lia. }
  rewrite Hf. cbn.
  repeat split.
Qed.

Lemma breaker_call_failed_probe_witness :
  let c := Breaker.Call 600 false (Breaker.mkCB Breaker.StateOpen 50 1000 5 500 [] 0 0 3) in
  fst c = Breaker.CallFnError /\
  Breaker.state (snd c) = Breaker.StateOpen /\
  Breaker.lastStateChange (snd c) = 600 /\
  Breaker.Call 900 true (snd c) = (Breaker.ErrCircuitBreakerOpen, snd c).
Proof. apply breaker_call_failed_probe; simpl; [reflexivity | lia | lia]. Defined.

(** The sliding window: after [RecordSuccess] or [RecordFailure] at
    [now], the breaker keeps exactly the records newer than
    [now - windowSize].  The exception is a window of [-2^63], which
    [time.Duration(2^54) * time.Second] produces: its negation wraps, and
    the breaker keeps every record newer than [now - 2^63] instead.  The
    new record is the last one when the window is positive or [-2^63]. *)
Theorem breaker_window :
  forall now (ok : bool) (cb : Breaker.CircuitBreaker),
    let cb' := if ok then Breaker.RecordSuccess now cb else Breaker.RecordFailure now cb in
    Breaker.windowSize cb' = Breaker.windowSize cb /\
    (Breaker.windowSize cb <> - 2 ^ 63 ->
     Breaker.requests cb' =
       List.filter (fun r => now - Breaker.windowSize cb <? Breaker.timestamp r)
         (Breaker.requests cb ++ [Breaker.mkRecord now ok])) /\
    (Breaker.windowSize cb = - 2 ^ 63 ->
     Breaker.requests cb' =
       List.filter (fun r => now - 2 ^ 63 <? Breaker.timestamp r)
         (Breaker.requests cb ++ [Breaker.mkRecord now ok])) /\
    (0 < Breaker.windowSize cb \/ Breaker.windowSize cb = - 2 ^ 63 ->
     exists rs, Breaker.requests cb' = rs ++ [Breaker.mkRecord now ok]).
Proof.
  intros now ok cb cb'.
  assert (Hreq : Breaker.requests cb' =
      List.filter (fun r => now + neg64 (Breaker.windowSize cb) <? Breaker.timestamp r)
        (Breaker.requests cb ++ [Breaker.mkRecord now ok]) /\
      Breaker.windowSize cb' = Breaker.windowSize cb).
  { subst cb'. destruct cb as [st thr ws mr bd rs lsc cs hom].
    destruct ok; unfold Breaker.RecordSuccess, Breaker.RecordFailure; cbn;
      destruct st; cbn; try (split; reflexivity);
      try (destruct (cs + 1 >=? hom); split; reflexivity);
      destruct (Breaker.shouldOpen _); split; reflexivity. }
  destruct Hreq as [Hreq Hw].
  assert (Hcut : Breaker.windowSize cb = - 2 ^ 63 ->
                 now + neg64 (Breaker.windowSize cb) = now - 2 ^ 63).
  { intros E. rewrite E. unfold neg64. rewrite Z.eqb_refl. lia. }
  split; [exact Hw | split; [| split]].
  - intros Hne. rewrite Hreq, neg64_ne by exact Hne. reflexivity.
  - intros E. rewrite Hreq, (Hcut E). reflexivity.
  - intros Hpos. rewrite Hreq, List.filter_app. simpl.
    replace (now + neg64 (Breaker.windowSize cb) <? now) with true.
    + eexists. reflexivity.
    + destruct Hpos as [Hpos | E].
      * rewrite neg64_ne by lia. lia.
      * rewrite (Hcut E). lia.
Qed.

(** Opening: a fresh breaker with a threshold in 1..100, a positive
    window and a positive [minRequests] stays closed under fewer than
    [minRequests] failures at one instant [t], and the [minRequests]-th
    failure opens it with stamp [t]. *)
Theorem breaker_opens_at_min_requests :
  forall now t thr ws mr bd,
    1 <= thr <= 100 -> 0 < ws -> 1 <= mr ->
    (forall k, Z.of_nat k < mr ->
       Breaker.state (failures_at t k (Breaker.NewCircuitBreaker now thr ws mr bd))
         = Breaker.StateClosed) /\
    Breaker.state (failures_at t (Z.to_nat mr) (Breaker.NewCircuitBreaker now thr ws mr bd))
      = Breaker.StateOpen /\
    Breaker.lastStateChange
      (failures_at t (Z.to_nat mr) (Breaker.NewCircuitBreaker now thr ws mr bd)) = t.
Proof.
  intros now t thr ws mr bd Hthr Hw Hmr.
  split.
  - intros k Hk. rewrite failures_at_closed by assumption. reflexivity.
  - replace (Z.to_nat mr) with (S (Z.to_nat (mr - 1))) by lia.
    change (failures_at t (S (Z.to_nat (mr - 1))) (Breaker.NewCircuitBreaker now thr ws mr bd))
      with (Breaker.RecordFailure t
              (failures_at t (Z.to_nat (mr - 1)) (Breaker.NewCircuitBreaker now thr ws mr bd))).
    rewrite failures_at_closed by lia.
    unfold Breaker.RecordFailure, Breaker.cleanup, Breaker.set_requests.
    cbn [Breaker.state Breaker.requests Breaker.windowSize].
    rewrite repeat_snoc, filter_recent_repeat by exact Hw.
    unfold Breaker.shouldOpen. cbn [Breaker.requests Breaker.state Breaker.minRequests
                                   Breaker.failureThreshold].
    rewrite failures_repeat, List.repeat_length.
    set (n := Z.of_nat (S (Z.to_nat (mr - 1)))).
    assert (Hn : n = mr) by (subst n; lia).
    rewrite (proj2 (Z.leb_le mr n)) by lia.
    rewrite (proj2 (Z.ltb_lt 0 n)) by lia.
    rewrite (proj2 (Z.leb_le (thr * n) (n * 100))) by nia.
    split; reflexivity.
Qed.

Lemma breaker_opens_at_min_requests_witness :
  (forall k, Z.of_nat k < 5 ->
     Breaker.state (failures_at 10 k (Breaker.NewCircuitBreaker 0 50 1000 5 500))
       = Breaker.StateClosed) /\
  Breaker.state (failures_at 10 (Z.to_nat 5) (Breaker.NewCircuitBreaker 0 50 1000 5 500))
    = Breaker.StateOpen /\
  Breaker.lastStateChange
    (failures_at 10 (Z.to_nat 5) (Breaker.NewCircuitBreaker 0 50 1000 5 500)) = 10.
Proof. apply breaker_opens_at_min_requests; lia. Defined.

(* ------------------------------------------------------------------ *)
(** ** The IP ban manager *)

Section IPBanProperties.
Import IPBan.

Lemma IsBanned_frame q ip (m m' : IPBanManager) :
  whitelist m' = whitelist m -> bannedIPs m' !! ip = bannedIPs m !! ip ->
  IsBanned q ip m' = IsBanned q ip m.
Proof. intros Hw Hb. unfold IsBanned, is_whitelisted. rewrite Hw, Hb. reflexivity. Qed.

Lemma sweep_lookup now (m : IPBanManager) ip :
  bannedIPs (sweep now m) !! ip =
    match bannedIPs m !! ip with
    | Some e => if now >? e then None else Some e
    | None => None
    end.
Proof.
  unfold sweep, set_maps. cbn [bannedIPs].
  destruct (bannedIPs m !! ip) as [e|] eqn:E.
  - destruct (now >? e) eqn:Hne.
    + apply map_lookup_filter_None. right. intros x Hx. rewrite E in Hx.
      injection Hx as <-. lia.
    + apply map_lookup_filter_Some. split; [exact E | lia].
  - apply map_lookup_filter_None. left. exact E.
Qed.

Lemma NoDup_map_fst_filter {V} (f : string * V -> bool) (l : list (string * V)) :
  NoDup (map fst l) -> NoDup (map fst (List.filter f l)).
Proof.
  induction l as [|x l IH]; intros Hnd; [constructor |].
  simpl in Hnd. apply NoDup_cons in Hnd as [Hx Hnd].
  simpl. destruct (f x); [| exact (IH Hnd)].
  simpl. apply NoDup_cons. split; [| exact (IH Hnd)].
  intros Hin. apply Hx. apply list_elem_of_In. apply list_elem_of_In in Hin.
  apply in_map_iff in Hin as (y & Hy & Hin). apply filter_In in Hin as [Hin _].
  apply in_map_iff. exists y. split; assumption.
Qed.



End IPBanProperties.

(** [RecordFailure] for one IP leaves every other IP as it was: its ban
    status at every instant, its failure count and the failure count
    saved with its ban. *)
Theorem ipban_record_failure_other_ips :
  forall now ip ip' q (m : IPBan.IPBanManager),
    ip <> ip' ->
    let m' := IPBan.RecordFailure now ip m in
    IPBan.IsBanned q ip' m' = IPBan.IsBanned q ip' m /\
    IPBan.GetFailureCount ip' m' = IPBan.GetFailureCount ip' m /\
    IPBan.bannedFailCount m' !! ip' = IPBan.bannedFailCount m !! ip'.
Proof.
  intros now ip ip' q m Hne m'. subst m'.
  unfold IPBan.RecordFailure.
  destruct (IPBan.is_whitelisted ip m); [repeat split |].
  destruct (_ >=? _); unfold IPBan.GetFailureCount, IPBan.count_of;
    (split; [apply IsBanned_frame; [reflexivity |] |]); cbn;
    rewrite ?lookup_delete_ne, ?lookup_insert_ne by exact Hne; repeat split.
Qed.

Lemma ipban_record_failure_other_ips_witness :
  let m' := IPBan.RecordFailure 0 "10.0.0.1" (IPBan.emptyManager 3 300 []) in
  IPBan.IsBanned 5 "10.0.0.2" m' = IPBan.IsBanned 5 "10.0.0.2" (IPBan.emptyManager 3 300 []) /\
  IPBan.GetFailureCount "10.0.0.2" m' = IPBan.GetFailureCount "10.0.0.2" (IPBan.emptyManager 3 300 []) /\
  IPBan.bannedFailCount m' !! "10.0.0.2" = IPBan.bannedFailCount (IPBan.emptyManager 3 300 []) !! "10.0.0.2".
Proof. apply ipban_record_failure_other_ips. discriminate. Defined.

(** [RecordSuccess] never lifts a ban: the ban status of every IP at
    every instant and the list of banned IPs are unchanged; it only
    resets the failure count of its own IP to zero. *)
Theorem ipban_record_success_keeps_bans :
  forall ip ip' q (m : IPBan.IPBanManager),
    let m' := IPBan.RecordSuccess ip m in
    IPBan.IsBanned q ip' m' = IPBan.IsBanned q ip' m /\
    IPBan.GetBannedIPs q m' = IPBan.GetBannedIPs q m /\
    IPBan.GetFailureCount ip m' = 0 /\
    (ip <> ip' -> IPBan.GetFailureCount ip' m' = IPBan.GetFailureCount ip' m).
Proof.
  intros ip ip' q m m'. subst m'.
  split; [apply IsBanned_frame; reflexivity |].
  split; [reflexivity |].
  unfold IPBan.RecordSuccess, IPBan.GetFailureCount, IPBan.count_of. cbn.
  rewrite lookup_delete_eq. split; [reflexivity |].
  intros Hne. rewrite lookup_delete_ne by exact Hne. reflexivity.
Qed.

(** [UnbanIP] clears an IP completely: it is not banned at any instant,
    not listed by [GetBannedIPs], has failure count zero and
    [saveToFile] writes no record for it; every other IP keeps its ban
    status and failure count. *)
Theorem ipban_unban :
  forall ip q (m : IPBan.IPBanManager),
    let m' := IPBan.UnbanIP ip m in
    IPBan.IsBanned q ip m' = false /\
    ~ In ip (IPBan.GetBannedIPs q m') /\
    IPBan.GetFailureCount ip m' = 0 /\
    records_of ip (IPBan.saveToFile q m') = [] /\
    (forall ip', ip <> ip' ->
       IPBan.IsBanned q ip' m' = IPBan.IsBanned q ip' m /\
       IPBan.GetFailureCount ip' m' = IPBan.GetFailureCount ip' m).
Proof.
  intros ip q m m'. subst m'.
  split; [unfold IPBan.IsBanned; cbn; rewrite lookup_delete_eq;
          destruct (IPBan.is_whitelisted _ _); reflexivity |].
  split; [rewrite GetBannedIPs_spec; cbn; rewrite lookup_delete_eq;
          intros (e & He & _); discriminate He |].
  split; [unfold IPBan.GetFailureCount, IPBan.count_of; cbn; rewrite lookup_delete_eq;
          reflexivity |].
  split; [rewrite saveToFile_records_of; cbn; rewrite !lookup_delete_eq; reflexivity |].
  intros ip' Hne. split.
  - apply IsBanned_frame; [reflexivity |]. cbn. apply lookup_delete_ne. exact Hne.
  - unfold IPBan.GetFailureCount, IPBan.count_of. cbn.
    rewrite lookup_delete_ne by exact Hne. reflexivity.
Qed.

(** One tick of the sweeper at [now] changes nothing observable from
    [now] on: for every later instant [q], the ban status of every IP,
    membership in [GetBannedIPs] and the records [saveToFile] writes are
    those of the manager before the sweep; failure counts are untouched. *)
Theorem ipban_sweep_unobservable :
  forall now q ip (m : IPBan.IPBanManager),
    now <= q ->
    let m' := IPBan.sweep now m in
    IPBan.IsBanned q ip m' = IPBan.IsBanned q ip m /\
    (In ip (IPBan.GetBannedIPs q m') <-> In ip (IPBan.GetBannedIPs q m)) /\
    records_of ip (IPBan.saveToFile q m') = records_of ip (IPBan.saveToFile q m) /\
    IPBan.GetFailureCount ip m' = IPBan.GetFailureCount ip m.
Proof.
  intros now q ip m Hq m'. subst m'.
  split.
  { unfold IPBan.IsBanned at 1. unfold IPBan.IsBanned, IPBan.is_whitelisted.
    rewrite sweep_lookup. cbn [IPBan.sweep IPBan.set_maps IPBan.whitelist].
    destruct (bool_decide _); [reflexivity |].
    destruct (IPBan.bannedIPs m !! ip) as [e|]; [| reflexivity].
    destruct (now >? e) eqn:E; [| reflexivity].
    rewrite (proj2 (Z.gtb_lt q e)) by lia. reflexivity. }
  split.
  { rewrite !GetBannedIPs_spec, sweep_lookup. split.
    - intros (e & He & Hlt). destruct (IPBan.bannedIPs m !! ip) as [e'|]; [| discriminate].
      destruct (now >? e'); [discriminate |]. exists e'. injection He as <-. split; auto.
    - intros (e & He & Hlt). rewrite He. exists e.
      rewrite Z.gtb_ltb, (proj2 (Z.ltb_ge e now)) by lia. split; auto. }
  split; [| reflexivity].
  rewrite !saveToFile_records_of, sweep_lookup. cbn [IPBan.sweep IPBan.set_maps IPBan.failureCounts].
  destruct (IPBan.bannedIPs m !! ip) as [e|]; [| reflexivity].
  destruct (now >? e) eqn:E; [| reflexivity].
  rewrite (proj2 (Z.ltb_ge q e)) by lia. reflexivity.
Qed.

Lemma ipban_sweep_unobservable_witness :
  let m := IPBan.mkIPBan {[ "10.0.0.1" := 100 ]} {[ "10.0.0.1" := 3 ]} ∅ 3 300 ∅ in
  let m' := IPBan.sweep 200 m in
  IPBan.IsBanned 250 "10.0.0.1" m' = IPBan.IsBanned 250 "10.0.0.1" m /\
  (In "10.0.0.1" (IPBan.GetBannedIPs 250 m') <-> In "10.0.0.1" (IPBan.GetBannedIPs 250 m)) /\
  records_of "10.0.0.1" (IPBan.saveToFile 250 m') = records_of "10.0.0.1" (IPBan.saveToFile 250 m) /\
  IPBan.GetFailureCount "10.0.0.1" m' = IPBan.GetFailureCount "10.0.0.1" m.
Proof. apply ipban_sweep_unobservable. lia. Defined.

(** [GetBannedIPs] lists each IP at most once, and for an IP that is not
    whitelisted it lists exactly the IPs [IsBanned] reports, except at the
    expiry instant itself: [IsBanned] still holds when [now] equals the
    expiry, [GetBannedIPs] ([now.Before(expiry)]) no longer lists it. *)
Theorem ipban_banned_list_vs_isbanned :
  forall now ip (m : IPBan.IPBanManager),
    ip ∉ IPBan.whitelist m ->
    NoDup (IPBan.GetBannedIPs now m) /\
    (In ip (IPBan.GetBannedIPs now m) <->
     IPBan.IsBanned now ip m = true /\ IPBan.bannedIPs m !! ip <> Some now).
Proof.
  intros now ip m Hwl. split.
  - apply NoDup_map_fst_filter. apply NoDup_fst_map_to_list.
  - rewrite GetBannedIPs_spec. unfold IPBan.IsBanned, IPBan.is_whitelisted.
    rewrite bool_decide_false by exact Hwl.
    destruct (IPBan.bannedIPs m !! ip) as [e|]; split.
    + intros (e' & He & Hlt). injection He as <-.
      rewrite Z.gtb_ltb, (proj2 (Z.ltb_ge e now)) by lia.
      split; [reflexivity | intros He; injection He as ->; lia].
    + intros [Hb Hne]. exists e. split; [reflexivity |].
      destruct (now >? e) eqn:E; [discriminate |].
      assert (e <> now) by (intros ->; apply Hne; reflexivity). lia.
    + intros (e' & He & _). discriminate.
    + intros [Hb _]. discriminate.
Qed.

Lemma ipban_banned_list_vs_isbanned_witness :
  let m := IPBan.mkIPBan {[ "10.0.0.1" := 100 ]} {[ "10.0.0.1" := 3 ]} ∅ 3 300 ∅ in
  NoDup (IPBan.GetBannedIPs 100 m) /\
  (In "10.0.0.1" (IPBan.GetBannedIPs 100 m) <->
   IPBan.IsBanned 100 "10.0.0.1" m = true /\ IPBan.bannedIPs m !! "10.0.0.1" <> Some 100).
Proof. apply ipban_banned_list_vs_isbanned. simpl. set_solver. Defined.


(* ------------------------------------------------------------------ *)
(** ** Rate limiting, authentication and the configuration *)

Section ServerProperties.
Import Config Server.

(** What a nil error of [Validate] guarantees about the enabled sections. *)
Lemma Validate_None (c : Config) :
  Validate c = None ->
  (auth_Enabled (Auth c) = true -> Users (Auth c) <> []) /\
  (ipban_Enabled (IPBanCfg c) = true ->
     0 < MaxFailures (IPBanCfg c) /\ 0 < BanDurationSeconds (IPBanCfg c)) /\
  (ratelimit_Enabled (RateLimitCfg c) = true ->
     0 < GlobalRequestsPerSecond (RateLimitCfg c) /\ 0 < PerIPRequestsPerSecond (RateLimitCfg c)).
Proof.
  intros H. unfold Validate in H. cbv zeta in H.
  repeat (match type of H with
          | (if ?b then _ else _) = None =>
              let E := fresh "E" in destruct b eqn:E; [discriminate H | cbv iota in H]
          end).
  split; [| split]; intros Hen; rewrite Hen in *; cbn [andb] in *.
  - destruct (Users (Auth c)); [discriminate E1 | discriminate].
  - split; apply Z.leb_gt; assumption.
  - split; apply Z.leb_gt; assumption.
Qed.

Lemma seconds_small n : 0 <= n <= 9223372036 -> seconds n = n * 1000000000.
Proof.
  intros Hn. unfold seconds, wrap64.
  rewrite Z.mod_small by lia. lia.
Qed.

Lemma seconds_wrap n : 9223372037 <= n <= 18446744073 ->
  seconds n = n * 1000000000 - 2 ^ 64.
Proof.
  intros Hn. unfold seconds, wrap64.
  rewrite <- (Z.mod_unique (n * 1000000000 + 2 ^ 63) (2 ^ 64) 1 (n * 1000000000 + 2 ^ 63 - 2 ^ 64));
    lia.
Qed.

(** The credentials map: the last user with a name gives its password. *)
Lemma credentials_lookup (us : list User) u p :
  fold_left (fun (m : gmap string string) x => <[Username x := Password x]> m) us ∅ !! u = Some p <->
  exists pre post, us = pre ++ mkUser u p :: post /\ Forall (fun x => Username x <> u) post.
Proof.
  induction us as [|x us IH] using rev_ind.
  - simpl. split; [intros H; discriminate H |].
    intros (pre & post & Heq & _). destruct pre; discriminate Heq.
  - rewrite fold_left_app. simpl.
    destruct (String.eqb_spec (Username x) u) as [Hx|Hx].
    + rewrite Hx, lookup_insert_eq. split.
      * intros H. injection H as <-. exists us, []. split; [| constructor].
        destruct x; simpl in *; subst; reflexivity.
      * intros (pre & post & Heq & Hpost).
        destruct post as [|y post _] using rev_ind.
        -- apply app_inj_tail in Heq as [_ ->]. reflexivity.
        -- rewrite app_comm_cons, app_assoc in Heq. apply app_inj_tail in Heq as [_ <-].
           apply Forall_app in Hpost as [_ Hy]. inversion Hy. contradiction.
    + rewrite lookup_insert_ne by exact Hx. rewrite IH. split.
      * intros (pre & post & Heq & Hpost). exists pre, (post ++ [x]). split.
        -- rewrite Heq, <- app_assoc. reflexivity.
        -- apply Forall_app. split; [exact Hpost | constructor; [exact Hx | constructor]].
      * intros (pre & post & Heq & Hpost).
        destruct post as [|y post _] using rev_ind.
        -- apply app_inj_tail in Heq as [_ Hxu]. subst x. contradiction.
        -- rewrite app_comm_cons, app_assoc in Heq. apply app_inj_tail in Heq as [Hus <-].
           apply Forall_app in Hpost as [Hpost _]. exists pre, post. split; [exact Hus | exact Hpost].
Qed.

End ServerProperties.

Lemma auth_failures_enabled ip ts m :
  auth_failures ip ts (mkIPBanMW true m) = mkIPBanMW true (fails ip ts m).
Proof.
  revert m. induction ts as [|t ts IH]; intros m; [reflexivity |].
  simpl. apply IH.
Qed.

(** At the threshold, the ban runs exactly until [t + banDuration]. *)
Lemma fails_threshold_state (m : IPBan.IPBanManager) ip (ts : list Z) t :
  ip ∉ IPBan.whitelist m ->
  1 <= IPBan.maxFailures m ->
  IPBan.bannedIPs m !! ip = None ->
  IPBan.failureCounts m !! ip = None ->
  Z.of_nat (length ts) = IPBan.maxFailures m - 1 ->
  IPBan.bannedIPs (fails ip (ts ++ [t]) m) !! ip = Some (t + IPBan.banDuration m) /\
  IPBan.whitelist (fails ip (ts ++ [t]) m) = IPBan.whitelist m.
Proof.
  intros Hwl Hmf Hban Hfc Hlen.
  destruct (fails_below_threshold ip ts m 0 Hwl Hban) as (H1 & H2 & H3 & H4 & H5).
  { unfold IPBan.count_of. rewrite Hfc. reflexivity. }
  { lia. }
  rewrite fails_app. simpl.
  unfold IPBan.RecordFailure, IPBan.is_whitelisted. rewrite H5.
  rewrite bool_decide_false by assumption. rewrite H2, H3.
  replace (0 + Z.of_nat (length ts) + 1 >=? IPBan.maxFailures m) with true by lia.
  simpl. rewrite lookup_insert_eq, H4. split; [reflexivity | exact H5].
Qed.

(** Rate limiting is per IP: a call of [Allow] for one IP leaves the
    per-IP bucket of every other IP as it was (absent stays absent). *)
Theorem rate_limit_isolation :
  forall now ip ip' (r : RateLimitMiddleware),
    ip <> ip' ->
    perIPLimiters (snd (Allow now ip r)) !! ip' = perIPLimiters r !! ip'.
Proof.
  intros now ip ip' r Hne.
  unfold Allow, perIPAllow, getIPLimiter.
  destruct (rl_enabled r); [| reflexivity]. cbn [negb].
  destruct (globalLimiter r) as [g|].
  - destruct (Rate.Allow now g) as [[|] g']; [| reflexivity].
    cbn [set_global perIPLimiters].
    destruct (perIPLimiters r !! ip); cbn;
      (destruct (Rate.Allow _ _); cbn; rewrite ?lookup_insert_ne by exact Hne; reflexivity).
  - destruct (perIPLimiters r !! ip); cbn;
      (destruct (Rate.Allow _ _); cbn; rewrite ?lookup_insert_ne by exact Hne; reflexivity).
Qed.

Lemma rate_limit_isolation_witness :
  perIPLimiters (snd (Allow 0 "10.0.0.1" (NewRateLimitMiddleware true 10 5))) !! "10.0.0.2" =
  perIPLimiters (NewRateLimitMiddleware true 10 5) !! "10.0.0.2".
Proof. apply rate_limit_isolation. discriminate. Defined.

(** A refused request never spends a per-IP token: every per-IP bucket
    is unchanged, except that the caller's bucket is created fresh if it
    did not exist yet.  The global bucket, if any, is charged as
    [Rate.Allow] charges it, so a request refused by its per-IP bucket
    has still consumed a global token. *)
Theorem rate_limit_refusal :
  forall now ip (r : RateLimitMiddleware),
    fst (Allow now ip r) = false ->
    (forall ip', perIPLimiters (snd (Allow now ip r)) !! ip' = perIPLimiters r !! ip' \/
       (ip' = ip /\ perIPLimiters r !! ip = None /\
        perIPLimiters (snd (Allow now ip r)) !! ip =
          Some (Rate.NewLimiter (perIPLimit r) (perIPBurst r)))) /\
    globalLimiter (snd (Allow now ip r)) =
      option_map (fun g => snd (Rate.Allow now g)) (globalLimiter r).
Proof.
  intros now ip r.
  assert (Hper : forall r0, globalLimiter r0 = globalLimiter r0 ->
    fst (perIPAllow now ip r0) = false ->
    (forall ip', perIPLimiters (snd (perIPAllow now ip r0)) !! ip' = perIPLimiters r0 !! ip' \/
       (ip' = ip /\ perIPLimiters r0 !! ip = None /\
        perIPLimiters (snd (perIPAllow now ip r0)) !! ip =
          Some (Rate.NewLimiter (perIPLimit r0) (perIPBurst r0)))) /\
    globalLimiter (snd (perIPAllow now ip r0)) = globalLimiter r0).
  { intros r0 _ Hf. unfold perIPAllow, getIPLimiter in *.
    destruct (perIPLimiters r0 !! ip) as [l|] eqn:E.
    - unfold Rate.Allow in *.
      destruct (Rate.limit l =? 0); [destruct (1 <=? Rate.burst l)|];
        [discriminate Hf | | destruct (_ && _); [discriminate Hf |]];
        cbn in *; (split; [| reflexivity]); intros ip'; left;
        (destruct (String.eqb_spec ip' ip) as [->|Hne];
         [rewrite lookup_insert_eq; symmetry; exact E | apply lookup_insert_ne; congruence]).
    - unfold Rate.Allow in *. cbn [Rate.limit Rate.burst Rate.NewLimiter] in *.
      destruct (perIPLimit r0 =? 0); [destruct (1 <=? perIPBurst r0)|];
        [discriminate Hf | | destruct (_ && _); [discriminate Hf |]];
        cbn in *; (split; [| reflexivity]); intros ip';
        (destruct (String.eqb_spec ip' ip) as [->|Hne];
         [right; rewrite insert_insert_eq, lookup_insert_eq; split; [reflexivity | split; [first [exact E | reflexivity] | reflexivity]]
         | left; rewrite insert_insert_eq; apply lookup_insert_ne; congruence]). }
  unfold Allow. destruct (rl_enabled r); cbn [negb]; [| intros H; discriminate H].
  destruct (globalLimiter r) as [g|] eqn:Eg.
  - destruct (Rate.Allow now g) as [[|] g'] eqn:Ea; cbn [option_map snd].
    + intros Hf. destruct (Hper (set_global (Some g') r) eq_refl Hf) as [H1 H2].
      split; [exact H1 | rewrite H2, Ea; reflexivity].
    + intros _. split; [intros ip'; left; reflexivity | rewrite Ea; reflexivity].
  - intros Hf. destruct (Hper r eq_refl Hf) as [H1 H2]. split; [exact H1 | rewrite H2, Eg; reflexivity].
Qed.

Lemma rate_limit_refusal_witness :
  let r := NewRateLimitMiddleware true 10 0 in
  (forall ip', perIPLimiters (snd (Allow 0 "10.0.0.1" r)) !! ip' = perIPLimiters r !! ip' \/
     (ip' = "10.0.0.1" /\ perIPLimiters r !! "10.0.0.1" = None /\
      perIPLimiters (snd (Allow 0 "10.0.0.1" r)) !! "10.0.0.1" =
        Some (Rate.NewLimiter (perIPLimit r) (perIPBurst r)))) /\
  globalLimiter (snd (Allow 0 "10.0.0.1" r)) =
    option_map (fun g => snd (Rate.Allow 0 g)) (globalLimiter r).
Proof. apply rate_limit_refusal. vm_compute. reflexivity. Defined.

(** With a configuration [Validate] accepts whose two rates are Go
    [int]s (below [2^63]), the rate limiter [NewServer] builds admits the
    first request of an IP, at any instant, exactly when rate limiting is
    off or both the global and the per-IP rate are below [2^62]: from
    [2^62] on, the Go product [rate * 2] wraps to a negative burst and
    the first request is refused. *)
Theorem server_rate_limit_first_request :
  forall now file (cfg : Config.Config) t ip,
    Config.Validate cfg = None ->
    Config.GlobalRequestsPerSecond (Config.RateLimitCfg cfg) < 2 ^ 63 ->
    Config.PerIPRequestsPerSecond (Config.RateLimitCfg cfg) < 2 ^ 63 ->
    (fst (Allow t ip (rateLimit (Server.NewServer_shared now file cfg))) = true <->
     Config.ratelimit_Enabled (Config.RateLimitCfg cfg) = false \/
     (Config.GlobalRequestsPerSecond (Config.RateLimitCfg cfg) < 2 ^ 62 /\
      Config.PerIPRequestsPerSecond (Config.RateLimitCfg cfg) < 2 ^ 62)).
Proof.
  intros now file cfg t ip Hv Hg63 Hp63.
  destruct (Validate_None cfg Hv) as (_ & _ & Hrl).
  unfold Server.NewServer_shared. cbn [rateLimit].
  destruct (Config.RateLimitCfg cfg) as [en g p]. cbn in Hrl, Hg63, Hp63 |- *.
  destruct en.
  2: { split; [intros _; left; reflexivity | intros _; reflexivity]. }
  destruct (Hrl eq_refl) as [Hg Hp].
  assert (Hfst : fst (Allow t ip (NewRateLimitMiddleware true g p)) =
                 (1 <=? wrap64 (g * 2)) && (1 <=? wrap64 (p * 2))).
  { unfold NewRateLimitMiddleware, Allow. cbn [andb negb rl_enabled].
    rewrite (proj2 (Z.ltb_lt 0 g)) by exact Hg. cbn [globalLimiter].
    pose proof (Rate_Allow_fresh t g (wrap64 (g * 2))) as Hgf.
    specialize (Hgf ltac:(lia)).
    destruct (Rate.Allow t (Rate.NewLimiter g (wrap64 (g * 2)))) as [okg g'].
    cbn [fst] in Hgf. rewrite <- Hgf.
    destruct okg; [| reflexivity].
    unfold perIPAllow, getIPLimiter. cbn [set_global perIPLimiters perIPLimit perIPBurst].
    rewrite lookup_empty.
    pose proof (Rate_Allow_fresh t p (wrap64 (p * 2))) as Hpf.
    specialize (Hpf ltac:(lia)).
    destruct (Rate.Allow t (Rate.NewLimiter p (wrap64 (p * 2)))) as [okp p'].
    cbn [fst] in Hpf |- *. rewrite Hpf. reflexivity. }
  rewrite Hfst. split.
  - intros H. right. apply andb_prop in H as [H1 H2].
    apply Z.leb_le in H1. apply Z.leb_le in H2. split.
    + destruct (Z.lt_ge_cases g (2 ^ 62)) as [Hs | Hb]; [exact Hs |].
      rewrite wrap64_double_big in H1 by lia. lia.
    + destruct (Z.lt_ge_cases p (2 ^ 62)) as [Hs | Hb]; [exact Hs |].
      rewrite wrap64_double_big in H2 by lia. lia.
  - intros [H | [H1 H2]]; [discriminate H |].
    rewrite (wrap64_small (g * 2)) by lia. rewrite (wrap64_small (p * 2)) by lia.
    apply andb_true_intro. split; apply Z.leb_le; lia.
Qed.

Lemma server_rate_limit_first_request_witness :
  let cfg := Config.mkConfig (Config.mkServerConfig 8080 1080)
       (Config.mkAuthConfig true [Config.mkUser "admin" "secret"])
       (Config.mkIPBanConfig true 5 3600 [])
       (Config.mkRateLimitConfig true 100 (2 ^ 62))
       (Config.mkCircuitBreakerConfig true 50 60 10 30) in
  (fst (Allow 0 "10.0.0.1" (rateLimit (Server.NewServer_shared 0 None cfg))) = true <->
   Config.ratelimit_Enabled (Config.RateLimitCfg cfg) = false \/
   (Config.GlobalRequestsPerSecond (Config.RateLimitCfg cfg) < 2 ^ 62 /\
    Config.PerIPRequestsPerSecond (Config.RateLimitCfg cfg) < 2 ^ 62)).
Proof.
  intros cfg. apply server_rate_limit_first_request;
    [vm_compute; reflexivity | vm_compute; reflexivity | vm_compute; reflexivity].
Defined.

(** The users of the configuration are the accepted credentials of the
    server's authentication: with authentication enabled a pair is
    accepted exactly when it is the last entry of its user name in
    [Users] (a later entry with the same name overrides an earlier one);
    disabled, every pair is accepted.  A configuration [Validate]
    accepts always leaves some pair accepted. *)
Theorem server_auth_credentials :
  forall now file (cfg : Config.Config) u p,
    (Authenticate (auth (Server.NewServer_shared now file cfg)) u p = true <->
     Config.auth_Enabled (Config.Auth cfg) = false \/
     exists pre post, Config.Users (Config.Auth cfg) = pre ++ Config.mkUser u p :: post /\
                      Forall (fun x => Config.Username x <> u) post) /\
    (Config.Validate cfg = None ->
     exists u' p', Authenticate (auth (Server.NewServer_shared now file cfg)) u' p' = true).
Proof.
  intros now file cfg u p.
  assert (Hacc : forall u p,
    Authenticate (auth (Server.NewServer_shared now file cfg)) u p = true <->
    Config.auth_Enabled (Config.Auth cfg) = false \/
    exists pre post, Config.Users (Config.Auth cfg) = pre ++ Config.mkUser u p :: post /\
                     Forall (fun x => Config.Username x <> u) post).
  { intros u0 p0. unfold Server.NewServer_shared, Authenticate. cbn [auth auth_enabled credentials].
    unfold Config.GetUserCredentials. rewrite <- credentials_lookup.
    destruct (Config.auth_Enabled (Config.Auth cfg)); cbn [negb].
    - split.
      + intros H. right. destruct (_ !! u0) as [e|]; [| discriminate H].
        apply String.eqb_eq in H. subst. reflexivity.
      + intros [H | H]; [discriminate H | rewrite H; apply String.eqb_refl].
    - split; intros _; [left | ]; reflexivity. }
  split; [apply Hacc |].
  intros Hv. destruct (Validate_None cfg Hv) as (Hau & _ & _).
  destruct (Config.auth_Enabled (Config.Auth cfg)) eqn:Ea.
  - destruct (exists_last (Hau eq_refl)) as (us & x & Eu).
    exists (Config.Username x), (Config.Password x). apply Hacc. right.
    exists us, []. split; [| constructor]. rewrite Eu. destruct x. reflexivity.
  - exists EmptyString, EmptyString. apply Hacc. left. reflexivity.
Qed.

(** The ban duration of the configuration, in seconds, becomes an
    [int64] count of nanoseconds.  For a configuration [Validate] accepts,
    with IP banning enabled, a fresh server (no persistence file) bans a
    non-whitelisted IP at its [MaxFailures]-th authentication failure
    (instant [t]) until exactly [t] plus the configured seconds, as long
    as the product does not overflow ([BanDurationSeconds <= 9223372036]);
    from 9223372037 to 18446744073 seconds the product wraps to a negative
    duration and the IP is not blocked even at the instant of the ban. *)
Theorem server_ban_duration :
  forall now (cfg : Config.Config) ip (ts : list Z) t,
    Config.Validate cfg = None ->
    Config.ipban_Enabled (Config.IPBanCfg cfg) = true ->
    ~ In ip (Config.Whitelist (Config.IPBanCfg cfg)) ->
    Z.of_nat (length ts) = Config.MaxFailures (Config.IPBanCfg cfg) - 1 ->
    let i := auth_failures ip (ts ++ [t]) (ipBan (Server.NewServer_shared now None cfg)) in
    let b := Config.BanDurationSeconds (Config.IPBanCfg cfg) in
    (b <= 9223372036 ->
     forall q, IsBlocked q ip i = true <-> q <= t + b * 1000000000) /\
    (9223372037 <= b <= 18446744073 -> IsBlocked t ip i = false).
Proof.
  intros now cfg ip ts t Hv Hen Hwl Hlen i b.
  destruct (Validate_None cfg Hv) as (_ & Hib & _).
  destruct (Hib Hen) as [Hmf Hbd].
  subst i. unfold Server.NewServer_shared. cbn [ipBan].
  rewrite Hen, auth_failures_enabled. unfold IPBan.NewIPBanManager.
  set (m := IPBan.emptyManager _ _ _).
  assert (Hwl' : ip ∉ IPBan.whitelist m).
  { subst m. unfold IPBan.emptyManager. cbn [IPBan.whitelist].
    rewrite elem_of_list_to_set. intros Hin. apply Hwl. apply list_elem_of_In. exact Hin. }
  destruct (fails_threshold_state m ip ts t Hwl') as [Hb Hw]; try reflexivity.
  { subst m. cbn. lia. }
  { subst m. cbn. exact Hlen. }
  assert (Hblk : forall q, IsBlocked q ip (mkIPBanMW true (fails ip (ts ++ [t]) m)) =
                           negb (q >? t + IPBan.banDuration m)).
  { intros q. unfold IsBlocked, IPBan.IsBanned, IPBan.is_whitelisted. cbn [negb ban_enabled manager].
    rewrite Hw, bool_decide_false by exact Hwl'. rewrite Hb.
    destruct (q >? _); reflexivity. }
  subst m. cbn [IPBan.emptyManager IPBan.banDuration] in Hblk. fold b in Hblk.
  split.
  - intros Hsmall q. rewrite Hblk, seconds_small by lia.
    destruct (q >? t + b * 1000000000) eqn:E; cbn; split; intros H.
    + discriminate H.
    + apply Z.gtb_lt in E. lia.
    + rewrite Z.gtb_ltb in E. apply Z.ltb_ge in E. lia.
    + reflexivity.
  - intros Hbig. rewrite Hblk, seconds_wrap by exact Hbig.
    rewrite (proj2 (Z.gtb_lt t (t + (b * 1000000000 - 2 ^ 64)))) by lia. reflexivity.
Qed.

Lemma server_ban_duration_witness :
  let cfg := Config.mkConfig (Config.mkServerConfig 8080 1080)
       (Config.mkAuthConfig true [Config.mkUser "admin" "secret"])
       (Config.mkIPBanConfig true 2 9223372037 [])
       (Config.mkRateLimitConfig true 100 10)
       (Config.mkCircuitBreakerConfig true 50 60 10 30) in
  let i := auth_failures "10.0.0.1" ([0] ++ [1]) (ipBan (Server.NewServer_shared 0 None cfg)) in
  let b := Config.BanDurationSeconds (Config.IPBanCfg cfg) in
  (b <= 9223372036 ->
   forall q, IsBlocked q "10.0.0.1" i = true <-> q <= 1 + b * 1000000000) /\
  (9223372037 <= b <= 18446744073 -> IsBlocked 1 "10.0.0.1" i = false).
Proof.
  apply server_ban_duration; [reflexivity | reflexivity | simpl; tauto | reflexivity].
Defined.

(* ------------------------------------------------------------------ *)
(** ** What the frontends dial *)

Section SOCKS5Runs.
Import SOCKS5.

Lemma run_bind {A B} (m : M A) (k : A -> M B) c c'' y :
  bind m k c = (c'', Some y) -> exists c' x, m c = (c', Some x) /\ k x c' = (c'', Some y).
Proof.
  unfold bind. destruct (m c) as [c' [x|]]; intros H; [| discriminate H].
  exists c', x. split; [reflexivity | exact H].
Qed.

Lemma readFull_Some k c c' bs :
  readFull k c = (c', Some bs) ->
  pending c = bs ++ pending c' /\ length bs = k /\ shared c' = shared c.
Proof.
  unfold readFull. destruct (k <=? length (pending c))%nat eqn:E; intros H; [| discriminate H].
  injection H as <- <-. cbn [pending shared].
  split; [symmetry; apply firstn_skipn |]. split; [| reflexivity].
  apply Nat.leb_le in E. apply firstn_length_le. exact E.
Qed.

Lemma write_Some bs c c' u : write bs c = (c', Some u) -> pending c' = pending c /\ shared c' = shared c.
Proof. intros H. injection H as <- _. split; reflexivity. Qed.

Lemma modify_Some f c c' u : modify f c = (c', Some u) -> pending c' = pending c.
Proof. intros H. injection H as <- _. reflexivity. Qed.

Lemma no_dial_bind {A B} (m : M A) (k : A -> M B) :
  no_dial m -> (forall x, no_dial (k x)) -> no_dial (bind m k).
Proof.
  intros Hm Hk c. unfold bind. specialize (Hm c).
  destruct (m c) as [c' [x|]]; simpl in *; [rewrite Hk; exact Hm | exact Hm].
Qed.

Lemma no_dial_write bs : no_dial (write bs).
Proof. intros c. cbn. unfold dials. rewrite flat_map_app. simpl. apply app_nil_r. Qed.

Ltac no_dial_step :=
  match goal with
  | |- no_dial (bind _ _) => apply no_dial_bind; [| intro]
  | |- no_dial (ret _) => intros ?; reflexivity
  | |- no_dial fail => intros ?; reflexivity
  | |- no_dial (readFull _) => let c := fresh "c" in intros c; unfold readFull;
                               destruct (_ <=? length (pending c))%nat; reflexivity
  | |- no_dial (write _) => apply no_dial_write
  | |- no_dial (modify _) => intros ?; reflexivity
  | |- no_dial get_shared => intros ?; reflexivity
  | |- no_dial (if ?b then _ else _) => destruct b
  | |- no_dial (match ?x with _ => _ end) => destruct x
  end.

Lemma no_dial_authenticatePassword now ip : no_dial (authenticatePassword now ip).
Proof. unfold authenticatePassword. repeat no_dial_step. Qed.

Lemma no_dial_handshake now ip : no_dial (handshake now ip).
Proof. unfold handshake. repeat (no_dial_step || apply no_dial_authenticatePassword). Qed.

(** A successful RFC 1929 exchange. *)
Lemma authenticatePassword_Some now ip c c' :
  authenticatePassword now ip c = (c', Some tt) ->
  exists ul ub pl pb,
    pending c = [x01; ul] ++ ub ++ [pl] ++ pb ++ pending c' /\
    length ub = Byte.to_nat ul /\ length pb = Byte.to_nat pl /\
    Authenticate (auth (shared c)) (string_of_list_byte ub) (string_of_list_byte pb) = true.
Proof.
  unfold authenticatePassword. intros H.
  apply run_bind in H as (c1 & buf & H1 & H).
  apply readFull_Some in H1 as (P1 & L1 & S1).
  destruct buf as [|v [|ul [|? ?]]]; try discriminate H.
  destruct (Byte.eqb v x01) eqn:Ev; [| discriminate H].
  apply Byte.byte_dec_bl in Ev. subst v. cbn [negb] in H.
  apply run_bind in H as (c2 & ub & H2 & H).
  apply readFull_Some in H2 as (P2 & L2 & S2).
  apply run_bind in H as (c3 & plb & H3 & H).
  apply readFull_Some in H3 as (P3 & L3 & S3).
  destruct plb as [|pl [|? ?]]; try discriminate L3. cbn [hd] in H.
  apply run_bind in H as (c4 & pb & H4 & H).
  apply readFull_Some in H4 as (P4 & L4 & S4).
  apply run_bind in H as (c5 & s5 & H5 & H). injection H5 as <- <-.
  apply run_bind in H as (c6 & u6 & H6 & H).
  apply run_bind in H as (c7 & u7 & H7 & H).
  apply write_Some in H7 as [P7 _].
  destruct (Authenticate _ _ _) eqn:Ea; [| discriminate H].
  injection H as <-.
  assert (P6 : pending c6 = pending c4) by (apply modify_Some in H6; exact H6).
  exists ul, ub, pl, pb. split; [| split; [exact L2 | split; [exact L4 |]]].
  - rewrite P1, P2, P3, P4, P7, P6. reflexivity.
  - rewrite <- Ea, S4, S3, S2, S1. reflexivity.
Qed.

(** A successful handshake with authentication enabled went through the
    username/password method. *)
Lemma handshake_Some now ip c c' :
  auth_enabled (auth (shared c)) = true ->
  handshake now ip c = (c', Some tt) ->
  exists n methods c1,
    pending c = [x05; n] ++ methods ++ pending c1 /\
    length methods = Byte.to_nat n /\ In x02 methods /\
    shared c1 = shared c /\
    authenticatePassword now ip c1 = (c', Some tt).
Proof.
  intros Hen. unfold handshake. intros H.
  apply run_bind in H as (c1 & buf & H1 & H).
  apply readFull_Some in H1 as (P1 & L1 & S1).
  destruct buf as [|v [|n [|? ?]]]; try discriminate H.
  destruct (Byte.eqb v socks5Version) eqn:Ev; [| discriminate H].
  apply Byte.byte_dec_bl in Ev. subst v. cbn [negb] in H.
  apply run_bind in H as (c2 & methods & H2 & H).
  apply readFull_Some in H2 as (P2 & L2 & S2).
  apply run_bind in H as (c3 & s3 & H3 & H). injection H3 as <- <-.
  apply run_bind in H as (c4 & u4 & H4 & H).
  apply write_Some in H4 as [P4 S4].
  rewrite S2, S1, Hen in H.
  destruct (existsb (Byte.eqb authPassword) methods) eqn:Ex; [| discriminate H].
  cbn in H.
  exists n, methods, c4. split; [| split; [exact L2 | split; [| split; [| exact H]]]].
  - rewrite P1, P2, P4. reflexivity.
  - apply existsb_exists in Ex as (b & Hb & Eb). apply Byte.byte_dec_bl in Eb. subst b. exact Hb.
  - rewrite S4, S2, S1. reflexivity.
Qed.

End SOCKS5Runs.

(** With authentication on, the SOCKS5 frontend dials only for a client
    that offered the username/password method in its greeting and then
    sent a username and password [Authenticate] accepts: the input
    starts with the greeting, the RFC 1929 sub-negotiation and accepted
    credentials, before any request. *)
Theorem socks5_dial_requires_password_auth :
  forall now dial s ip input d,
    auth_enabled (auth s) = true ->
    In d (dials (snd (SOCKS5.serve now dial s ip input))) ->
    exists n methods ul ub pl pb rest,
      input = [x05; n] ++ methods ++ [x01; ul] ++ ub ++ [pl] ++ pb ++ rest /\
      length methods = Byte.to_nat n /\ length ub = Byte.to_nat ul /\
      length pb = Byte.to_nat pl /\ In x02 methods /\
      Authenticate (auth s) (string_of_list_byte ub) (string_of_list_byte pb) = true.
Proof.
  intros now dial s ip input d Hen Hin.
  unfold SOCKS5.serve, SOCKS5.bind in Hin.
  pose proof (no_dial_handshake now ip (SOCKS5.mkConn s input [])) as Hnd.
  destruct (SOCKS5.handshake now ip (SOCKS5.mkConn s input [])) as [c1 [[]|]] eqn:Eh.
  - apply handshake_Some in Eh as (n & methods & c0 & P0 & L0 & I0 & S0 & Ha); [| exact Hen].
    apply authenticatePassword_Some in Ha as (ul & ub & pl & pb & P & Lu & Lp & A).
    exists n, methods, ul, ub, pl, pb, (SOCKS5.pending c1).
    cbn [SOCKS5.pending SOCKS5.shared] in P0, S0.
    split; [rewrite P0, P; reflexivity |].
    split; [exact L0 | split; [exact Lu | split; [exact Lp | split; [exact I0 |]]]].
    rewrite S0 in A. exact A.
  - simpl in Hin, Hnd. rewrite Hnd in Hin. destruct Hin.
Qed.

Lemma socks5_dial_requires_password_auth_witness :
  let input := [x05; x01; x02; x01; x05] ++ list_byte_of_string "user1" ++ [x05] ++
               list_byte_of_string "pass1" ++ [x05; x01; x00; x03; x0b] ++
               list_byte_of_string "example.com" ++ [x00; x50] in
  exists n methods ul ub pl pb rest,
    input = [x05; n] ++ methods ++ [x01; ul] ++ ub ++ [pl] ++ pb ++ rest /\
    length methods = Byte.to_nat n /\ length ub = Byte.to_nat ul /\
    length pb = Byte.to_nat pl /\ In x02 methods /\
    Authenticate (auth (auth_ban_shared [])) (string_of_list_byte ub) (string_of_list_byte pb) = true.
Proof.
  apply (socks5_dial_requires_password_auth 0 dial_all (auth_ban_shared []) "10.0.0.1" _
           ("tcp", "example.com:80")); [reflexivity |].
  vm_compute. left. reflexivity.
Defined.

Section HTTPAuth.

Lemma split_colon_spec s u p :
  HTTP.split_colon s = Some (u, p) <->
  s = (u ++ ":" ++ p)%string /\ Fmt.contains_char ":" u = false.
Proof.
  revert u. induction s as [|c s IH]; intros u; cbn [HTTP.split_colon].
  - split; [intros H; discriminate H |]. intros [H _]. destruct u; discriminate H.
  - destruct (Ascii.eqb_spec c ":") as [->|Hc].
    + split.
      * intros H. injection H as <- <-. split; reflexivity.
      * intros [H Hu]. destruct u as [|c' u]; [injection H as ->; reflexivity |].
        injection H as <- _. cbn [Fmt.contains_char] in Hu. discriminate Hu.
    + destruct (HTTP.split_colon s) as [[u' p']|] eqn:E; split.
      * intros H. injection H as <- <-. destruct (proj1 (IH u') eq_refl) as [Hs Hu].
        split; [rewrite Hs; reflexivity |]. cbn [Fmt.contains_char]. rewrite Ascii.eqb_sym.
        destruct (Ascii.eqb_spec c ":"); [contradiction | exact Hu].
      * intros [Hs Hu]. destruct u as [|c' u]; [injection Hs as ->; contradiction |].
        injection Hs as <- Hs. cbn [Fmt.contains_char] in Hu. rewrite Ascii.eqb_sym in Hu.
        destruct (Ascii.eqb_spec c ":"); [contradiction |].
        pose proof (proj2 (IH u) (conj Hs Hu)) as E'. injection E' as -> ->. reflexivity.
      * intros H. discriminate H.
      * intros [Hs Hu]. destruct u as [|c' u]; [injection Hs as ->; contradiction |].
        injection Hs as <- Hs. cbn [Fmt.contains_char] in Hu. rewrite Ascii.eqb_sym in Hu.
        destruct (Ascii.eqb_spec c ":"); [contradiction |].
        discriminate (proj2 (IH u) (conj Hs Hu)).
Qed.

Lemma substring_all s : substring 0 (String.length s) s = s.
Proof. induction s as [|c s IH]; [reflexivity |]. cbn. rewrite IH. reflexivity. Qed.

Lemma prefix_app s1 s2 : String.prefix s1 s2 = true <-> exists r, s2 = (s1 ++ r)%string.
Proof.
  revert s2. induction s1 as [|c s1 IH]; intros s2.
  - split; [intros _; exists s2; reflexivity | intros _; destruct s2; reflexivity].
  - destruct s2 as [|c' s2]; cbn.
    + split; [intros H; discriminate H | intros [r H]; discriminate H].
    + destruct (Ascii.ascii_dec c c') as [<-|Hc]; split.
      * intros H. apply IH in H as [r ->]. exists r. reflexivity.
      * intros [r H]. injection H as H. apply IH. exists r. exact H.
      * intros H. discriminate H.
      * intros [r H]. injection H as H. congruence.
Qed.

Lemma basic_payload_app enc : basic_payload (HTTP.basicPrefix ++ enc) = enc.
Proof.
  unfold basic_payload, HTTP.basicPrefix. simpl.
  rewrite ?Nat.sub_0_r. apply substring_all.
Qed.

End HTTPAuth.

(** [parseProxyAuth] accepts exactly a Basic value whose payload decodes
    to [username:password] with a username free of colons: the text is
    split at its first colon, so the password may contain colons and the
    username cannot. *)
Theorem http_parse_proxy_auth :
  forall (req : HTTP.Request) u p,
    HTTP.parseProxyAuth req = (u, p, true) <->
    exists enc,
      HTTP.Header_Get (HTTP.Header req) "Proxy-Authorization" = (HTTP.basicPrefix ++ enc)%string /\
      Base64.DecodeString enc = Some (u ++ ":" ++ p)%string /\
      Fmt.contains_char ":" u = false.
Proof.
  intros req u p. unfold HTTP.parseProxyAuth.
  set (a := HTTP.Header_Get _ _). split.
  - destruct (String.eqb_spec a EmptyString); [intros H; discriminate H |].
    destruct (String.prefix HTTP.basicPrefix a) eqn:Hp; [| intros H; discriminate H].
    apply prefix_app in Hp as [enc Ha]. cbn [negb].
    fold (basic_payload a). rewrite Ha, basic_payload_app.
    destruct (Base64.DecodeString enc) as [d|] eqn:Ed; [| intros H; discriminate H].
    destruct (HTTP.split_colon d) as [[u' p']|] eqn:Es; intros H; [| discriminate H].
    injection H as -> ->. apply split_colon_spec in Es as [-> Hu].
    exists enc. split; [first [exact Ha | reflexivity] | split; [exact Ed | exact Hu]].
  - intros (enc & Ha & Ed & Hu). rewrite Ha. cbn [String.eqb HTTP.basicPrefix append].
    replace (String.prefix _ _) with true by (symmetry; apply prefix_app; exists enc; reflexivity).
    cbn [negb]. fold (basic_payload (HTTP.basicPrefix ++ enc)). rewrite basic_payload_app, Ed.
    rewrite (proj2 (split_colon_spec _ u p) (conj eq_refl Hu)). reflexivity.
Qed.

(** The HTTP frontend dials only once the request is admitted (breaker
    closed, IP not blocked, rate limiter allowing) and, with
    authentication on, its Basic credentials parse and are accepted; it
    dials once, on its configured network, the request's host for
    [CONNECT], otherwise the host itself when it contains a colon and
    the host with port 80 appended when it does not. *)
Theorem http_dial_requires_admission_and_auth :
  forall now dial h s ip input d,
    In d (dials (snd (HTTP.handleConnection now dial h s ip input))) ->
    CB_IsOpen now (circuitBreaker s) = false /\
    IsBlocked now ip (ipBan s) = false /\
    fst (Allow now ip (rateLimit s)) = true /\
    exists req, input = Some req /\
      dials (snd (HTTP.handleConnection now dial h s ip input)) = [d] /\
      fst d = HTTP.network h /\
      snd d = (if String.eqb (HTTP.Method req) "CONNECT" then HTTP.Host req
               else if Fmt.contains_char ":" (HTTP.Host req) then HTTP.Host req
               else HTTP.Host req ++ ":80")%string /\
      (auth_enabled (auth s) = true ->
       exists u p, HTTP.parseProxyAuth req = (u, p, true) /\
                   Authenticate (auth s) u p = true).
Proof.
  intros now dial h s ip input d.
  unfold HTTP.handleConnection.
  destruct (CB_IsOpen now (circuitBreaker s)); [cbn; intros [] |].
  destruct (IsBlocked now ip (ipBan s)); [cbn; intros [] |].
  destruct (Allow now ip (rateLimit s)) as [[|] rl]; [| cbn; intros []].
  intros Hin. split; [reflexivity | split; [reflexivity | split; [reflexivity |]]].
  destruct input as [req|]; [| destruct Hin].
  exists req. split; [reflexivity |].
  assert (Hdisp : forall evs,
    evs = (if String.eqb (HTTP.Method req) "CONNECT" then HTTP.handleConnect dial h req
           else HTTP.handleHTTP dial h req) ->
    dials evs = [(HTTP.network h,
                  if String.eqb (HTTP.Method req) "CONNECT" then HTTP.Host req
                  else if Fmt.contains_char ":" (HTTP.Host req) then HTTP.Host req
                  else HTTP.Host req ++ ":80")%string]).
  { intros evs ->. destruct (String.eqb (HTTP.Method req) "CONNECT").
    - unfold HTTP.handleConnect. destruct (dial _ _); reflexivity.
    - unfold HTTP.handleHTTP, JoinHostPort.
      destruct (Fmt.contains_char ":" (HTTP.Host req)); destruct (dial _ _); reflexivity. }
  unfold HTTP.serve in *. cbn [set_rateLimit auth] in *.
  destruct (auth_enabled (auth s)) eqn:Ha.
  - destruct (HTTP.parseProxyAuth req) as [[u p] ok] eqn:Ep.
    destruct (negb ok || negb (Authenticate (auth s) u p)) eqn:Er; [cbn in Hin; destruct Hin |].
    apply orb_false_iff in Er as [Eok Ea]. apply negb_false_iff in Eok, Ea. subst ok.
    cbn [negb snd] in Hin |- *. rewrite (Hdisp _ eq_refl) in Hin |- *.
    destruct Hin as [<- | []]. split; [reflexivity | split; [reflexivity | split; [reflexivity |]]].
    intros _. exists u, p. split; [reflexivity | exact Ea].
  - cbn [negb snd] in Hin |- *. rewrite (Hdisp _ eq_refl) in Hin |- *.
    destruct Hin as [<- | []]. split; [reflexivity | split; [reflexivity | split; [reflexivity |]]].
    intros H. discriminate H.
Qed.

Lemma http_dial_requires_admission_and_auth_witness :
  CB_IsOpen 0 (circuitBreaker open_shared) = false /\
  IsBlocked 0 "10.0.0.1" (ipBan open_shared) = false /\
  fst (Allow 0 "10.0.0.1" (rateLimit open_shared)) = true /\
  exists req, Some http_connect_request = Some req /\
    dials (snd (HTTP.handleConnection 0 dial_all (HTTP.mkHTTPProxy 8080 "tcp") open_shared
                  "10.0.0.1" (Some http_connect_request))) = [("tcp", "example.com:443")] /\
    fst ("tcp", "example.com:443") = HTTP.network (HTTP.mkHTTPProxy 8080 "tcp") /\
    snd ("tcp", "example.com:443") =
      (if String.eqb (HTTP.Method req) "CONNECT" then HTTP.Host req
       else if Fmt.contains_char ":" (HTTP.Host req) then HTTP.Host req
       else HTTP.Host req ++ ":80")%string /\
    (auth_enabled (auth open_shared) = true ->
     exists u p, HTTP.parseProxyAuth req = (u, p, true) /\
                 Authenticate (auth open_shared) u p = true).
Proof.
  apply http_dial_requires_admission_and_auth. vm_compute. left. reflexivity.
Defined.

(** [IsOpen] (what the middleware asks) and [GetState] (what [Call]
    acts on) agree: the breaker refuses exactly when it is open and its
    [breakDuration] has not elapsed; once it has, [GetState] already
    reports half-open although the stored state is still open. *)
Theorem breaker_isopen_getstate :
  forall now (cb : Breaker.CircuitBreaker),
    (Breaker.IsOpen now cb = true <-> Breaker.GetState now cb = Breaker.StateOpen) /\
    (Breaker.GetState now cb = Breaker.StateHalfOpen <->
     Breaker.state cb = Breaker.StateHalfOpen \/
     (Breaker.state cb = Breaker.StateOpen /\
      Breaker.lastStateChange cb + Breaker.breakDuration cb <= now)).
Proof.
  intros now [st thr ws mr bd rs lsc cs hom].
  unfold Breaker.IsOpen, Breaker.GetState. cbn [Breaker.state Breaker.lastStateChange Breaker.breakDuration].
  destruct st.
  - rewrite bool_decide_false by discriminate. cbn.
    split; split; intros H; try discriminate H; destruct H as [H | [H _]]; discriminate H.
  - rewrite bool_decide_true by reflexivity. cbn [andb].
    destruct (now - lsc >=? bd) eqn:E.
    + apply Z.geb_le in E. split; split; intros H; try discriminate H; auto.
      right. split; [reflexivity | lia].
    + rewrite Z.geb_leb in E. apply Z.leb_gt in E.
      split; split; intros H; try discriminate H; try reflexivity.
      destruct H as [H | [_ H]]; [discriminate H | lia].
  - rewrite bool_decide_false by discriminate. cbn.
    split; split; intros H; try discriminate H; auto.
Qed.

Section SOCKS5Auth.
Import SOCKS5.

Lemma bind_readFull {B} k bs rest s evs (f : list byte -> M B) :
  length bs = k ->
  bind (readFull k) f (mkConn s (bs ++ rest) evs) = f bs (mkConn s rest evs).
Proof.
  intros Hk. unfold bind, readFull. cbn [pending shared events].
  rewrite length_app, (proj2 (Nat.leb_le k _)) by lia.
  subst k. rewrite take_app_length, drop_app_length. reflexivity.
Qed.

Lemma handshake_run now ip s n methods rest evs :
  auth_enabled (auth s) = true ->
  length methods = Byte.to_nat n -> In x02 methods ->
  handshake now ip (mkConn s ([x05; n] ++ methods ++ rest) evs) =
  authenticatePassword now ip (mkConn s rest (evs ++ [EvWrite [x05; x02]])).
Proof.
  intros Hen Hm Hin. unfold handshake.
  rewrite (bind_readFull 2 [x05; n]) by reflexivity.
  cbv beta iota. change (Byte.eqb x05 socks5Version) with true. cbn [negb].
  rewrite (bind_readFull _ methods) by exact Hm.
  unfold bind at 1, get_shared. cbn [shared]. rewrite Hen.
  replace (existsb (Byte.eqb authPassword) methods) with true.
  2: { symmetry. apply existsb_exists. exists x02. split; [exact Hin | reflexivity]. }
  unfold bind, write, emit. cbn [shared pending events].
  change (Byte.eqb authPassword authNoAccept) with false.
  change (Byte.eqb authPassword authPassword) with true.
  reflexivity.
Qed.

Lemma authenticatePassword_run now ip s ul ub pl pb rest evs :
  length ub = Byte.to_nat ul -> length pb = Byte.to_nat pl ->
  let ok := Authenticate (auth s) (string_of_list_byte ub) (string_of_list_byte pb) in
  authenticatePassword now ip (mkConn s ([x01; ul] ++ ub ++ [pl] ++ pb ++ rest) evs) =
  (mkConn (if ok then set_feedback (RecordAuthSuccess ip (ipBan s))
                                   (CB_RecordAuthSuccess now (circuitBreaker s)) s
           else set_feedback (RecordAuthFailure now ip (ipBan s))
                             (CB_RecordAuthFailure now (circuitBreaker s)) s)
          rest (evs ++ [EvWrite [x01; if ok then x00 else x01]]),
   if ok then Some tt else None).
Proof.
  intros Hu Hp ok. unfold authenticatePassword.
  rewrite (bind_readFull 2 [x01; ul]) by reflexivity.
  cbv beta iota. change (Byte.eqb x01 x01) with true. cbn [negb].
  rewrite (bind_readFull _ ub) by exact Hu.
  rewrite (bind_readFull 1 [pl]) by reflexivity. cbn [hd].
  rewrite (bind_readFull _ pb) by exact Hp.
  unfold bind at 1, get_shared. cbn [shared].
  fold ok. destruct ok; reflexivity.
Qed.

End SOCKS5Auth.

(** The SOCKS5 username/password path with authentication on: after a
    greeting that offers method 0x02, the server selects it; credentials
    [Authenticate] rejects are recorded as an authentication failure
    (ban tracker and breaker), answered with status 0x01 and end the
    connection before any request is read; accepted credentials are
    recorded as a success, answered with status 0x00, and the rest of
    the input is handled as the request. *)
Theorem socks5_password_auth_outcome :
  forall now dial s ip n methods ul ub pl pb rest,
    auth_enabled (auth s) = true ->
    length methods = Byte.to_nat n -> In x02 methods ->
    length ub = Byte.to_nat ul -> length pb = Byte.to_nat pl ->
    let ok := Authenticate (auth s) (string_of_list_byte ub) (string_of_list_byte pb) in
    let greeting := [EvWrite [x05; x02]] in
    SOCKS5.serve now dial s ip ([x05; n] ++ methods ++ [x01; ul] ++ ub ++ [pl] ++ pb ++ rest) =
    if ok then
      let '(c, _) := SOCKS5.handleRequest dial
          (SOCKS5.mkConn (set_feedback (RecordAuthSuccess ip (ipBan s))
                                       (CB_RecordAuthSuccess now (circuitBreaker s)) s)
             rest (greeting ++ [EvWrite [x01; x00]])) in
      (SOCKS5.shared c, SOCKS5.events c)
    else
      (set_feedback (RecordAuthFailure now ip (ipBan s))
                    (CB_RecordAuthFailure now (circuitBreaker s)) s,
       greeting ++ [EvWrite [x01; x01]]).
Proof.
  intros now dial s ip n methods ul ub pl pb rest Hen Hm Hin Hu Hp ok greeting.
  unfold SOCKS5.serve, SOCKS5.bind.
  rewrite handshake_run by assumption.
  rewrite authenticatePassword_run by assumption.
  subst ok greeting. destruct (Authenticate _ _ _); [| reflexivity].
  destruct (SOCKS5.handleRequest dial _) as [c r]. reflexivity.
Qed.

Lemma socks5_password_auth_outcome_witness :
  let s := auth_ban_shared [] in
  let ub := list_byte_of_string "user1" in
  let pb := list_byte_of_string "pass1" in
  let rest := [x05; x01; x00; x03; x0b] ++ list_byte_of_string "example.com" ++ [x00; x50] in
  let ok := Authenticate (auth s) (string_of_list_byte ub) (string_of_list_byte pb) in
  let greeting := [EvWrite [x05; x02]] in
  SOCKS5.serve 0 dial_all s "10.0.0.1" ([x05; x01] ++ [x02] ++ [x01; x05] ++ ub ++ [x05] ++ pb ++ rest) =
  if ok then
    let '(c, _) := SOCKS5.handleRequest dial_all
        (SOCKS5.mkConn (set_feedback (RecordAuthSuccess "10.0.0.1" (ipBan s))
                                     (CB_RecordAuthSuccess 0 (circuitBreaker s)) s)
           rest (greeting ++ [EvWrite [x01; x00]])) in
    (SOCKS5.shared c, SOCKS5.events c)
  else
    (set_feedback (RecordAuthFailure 0 "10.0.0.1" (ipBan s))
                  (CB_RecordAuthFailure 0 (circuitBreaker s)) s,
     greeting ++ [EvWrite [x01; x01]]).
Proof.
  apply socks5_password_auth_outcome; [reflexivity | reflexivity | left; reflexivity |
                                       reflexivity | reflexivity].
Defined.

Section SOCKS5Greeting.
Import SOCKS5.

Lemma handshake_no_method now ip s n methods rest evs :
  length methods = Byte.to_nat n ->
  ~ In (if auth_enabled (auth s) then x02 else x00) methods ->
  handshake now ip (mkConn s ([x05; n] ++ methods ++ rest) evs) =
  (mkConn s rest (evs ++ [EvWrite [x05; xff]]), None).
Proof.
  intros Hm Hin. unfold handshake.
  rewrite (bind_readFull 2 [x05; n]) by reflexivity.
  cbv beta iota. change (Byte.eqb x05 socks5Version) with true. cbn [negb].
  rewrite (bind_readFull _ methods) by exact Hm.
  unfold bind at 1, get_shared. cbn [shared].
  assert (Hex : forall b, b = (if auth_enabled (auth s) then x02 else x00) ->
                existsb (Byte.eqb b) methods = false).
  { intros b ->. apply Bool.not_true_is_false. intros Hx.
    apply existsb_exists in Hx as (b' & Hb' & Eb). apply Byte.byte_dec_bl in Eb. subst b'.
    contradiction. }
  destruct (auth_enabled (auth s)).
  - rewrite (Hex authPassword) by reflexivity. reflexivity.
  - rewrite (Hex authNone) by reflexivity. reflexivity.
Qed.

End SOCKS5Greeting.

Lemma fold_load_ban now rs : forall o e,
  fold_left (fun o r => load_ban now r o) rs o = Some e ->
  o = Some e \/ exists r, In r rs /\ IPBan.ExpiresAt r = Some e /\ now < e.
Proof.
  induction rs as [|r rs IH]; intros o e H; [left; exact H |].
  simpl in H. apply IH in H as [H | (r' & Hin & He & Hlt)].
  - unfold load_ban in H. destruct (IPBan.ExpiresAt r) as [e'|] eqn:Ee; [| left; exact H].
    destruct (now <? e') eqn:Hlt; [| left; exact H].
    injection H as ->. right. exists r. split; [left; reflexivity |].
    split; [exact Ee | apply Z.ltb_lt; exact Hlt].
  - right. exists r'. split; [right; exact Hin | split; assumption].
Qed.

Lemma loadFromFile_whitelist now rs : forall m,
  IPBan.whitelist (IPBan.loadFromFile now rs m) = IPBan.whitelist m.
Proof.
  induction rs as [|r rs IH]; intros m; [reflexivity |].
  unfold IPBan.loadFromFile in *. simpl. rewrite IH.
  unfold IPBan.load_record.
  destruct (IPBan.ExpiresAt r); [destruct (now <? _); [| destruct (0 <? _)] | destruct (0 <? _)];
    reflexivity.
Qed.

(** With authentication on, a SOCKS5 client whose greeting does not offer
    the username/password method (off: the no-authentication method) is
    answered [0x05 0xFF] and the connection ends: no dial, and nothing is
    recorded, neither by the ban tracker nor by the breaker. *)
Theorem socks5_no_acceptable_method :
  forall now dial s ip n methods rest,
    length methods = Byte.to_nat n ->
    ~ In (if auth_enabled (auth s) then x02 else x00) methods ->
    SOCKS5.serve now dial s ip ([x05; n] ++ methods ++ rest) = (s, [EvWrite [x05; xff]]).
Proof.
  intros now dial s ip n methods rest Hm Hin.
  unfold SOCKS5.serve, SOCKS5.bind. rewrite handshake_no_method by assumption. reflexivity.
Qed.

Lemma socks5_no_acceptable_method_witness :
  SOCKS5.serve 0 dial_all (auth_ban_shared []) "10.0.0.1" ([x05; x01] ++ [x00] ++ []) =
  (auth_ban_shared [], [EvWrite [x05; xff]]).
Proof.
  apply socks5_no_acceptable_method; [reflexivity |]. simpl. intros [H | []]. discriminate H.
Defined.

(** A manager built from a persistence file reports an IP banned at
    [q] only if the IP is not whitelisted and the file holds a record for
    it whose expiry is later than the loading instant and not earlier
    than [q]: loading never turns a failure count or an expired record
    into a ban. *)
Theorem ipban_loaded_bans_come_from_file :
  forall now q file mf bd wl ip,
    IPBan.IsBanned q ip (IPBan.NewIPBanManager now (Some file) mf bd wl) = true ->
    ~ In ip wl /\
    exists r e, In r file /\ IPBan.IP r = ip /\ IPBan.ExpiresAt r = Some e /\ now < e /\ q <= e.
Proof.
  intros now q file mf bd wl ip H.
  unfold IPBan.NewIPBanManager, IPBan.IsBanned, IPBan.is_whitelisted in H.
  rewrite loadFromFile_whitelist, loadFromFile_ban in H.
  cbn [IPBan.emptyManager IPBan.whitelist IPBan.bannedIPs] in H.
  destruct (bool_decide _) eqn:Hw; [discriminate H |].
  apply bool_decide_eq_false in Hw. split.
  { intros Hin. apply Hw. apply elem_of_list_to_set. apply list_elem_of_In. exact Hin. }
  rewrite lookup_empty in H.
  destruct (fold_left _ _ None) as [e|] eqn:Ef; [| discriminate H].
  destruct (q >? e) eqn:Hq; [discriminate H |].
  apply fold_load_ban in Ef as [Ef | (r & Hin & He & Hlt)]; [discriminate Ef |].
  unfold records_of in Hin. apply filter_In in Hin as [Hin Hip].
  apply String.eqb_eq in Hip.
  exists r, e. split; [exact Hin | split; [exact Hip | split; [exact He | split; [exact Hlt |]]]].
  rewrite Z.gtb_ltb in Hq. apply Z.ltb_ge in Hq. exact Hq.
Qed.

Lemma ipban_loaded_bans_come_from_file_witness :
  ~ In "10.0.0.1" [] /\
  exists r e, In r [IPBan.mkBanRecord "10.0.0.1" (Some 0) (Some 300) 3] /\
    IPBan.IP r = "10.0.0.1" /\ IPBan.ExpiresAt r = Some e /\ 100 < e /\ 200 <= e.
Proof.
  apply (ipban_loaded_bans_come_from_file 100 200 _ 3 300 [] "10.0.0.1").
  vm_compute. reflexivity.
Defined.
